(** * Shallow embedding of the BaiP AI summary agent scripts

    The development models, in plain Rocq, the pure parts of
    [src/scripts/tweet_scraper.py], [src/ai_summary_agent.py] and
    [src/scripts/twitter_scraper_scrapfly.py]: keyword bucketing, date
    parsing, the date window, prompt construction, the webhook payload, the
    mirror prober and the post-collection loop.  External effects (HTTP,
    clock, environment, the language model) become explicit inputs, and the
    observable outputs (HTTP requests issued, values returned) explicit
    results.

    Python [str] values are lists of Unicode code points ([pystr]).  Case
    mapping is the ASCII one (all keywords, format strings and month names
    of the code are ASCII); decimal digits are the ASCII ones. *)

From Stdlib Require Import List Bool NArith ZArith String Ascii Lia.
Import ListNotations.
Open Scope N_scope.

(** ** Python strings *)

Definition pystr := list N.

(** ASCII literals as Python strings. *)
Definition lit (s : string) : pystr :=
  map (fun a => N_of_ascii a) (list_ascii_of_string s).
Arguments lit s%_string.

Fixpoint str_eqb (a b : pystr) : bool :=
  match a, b with
  | [], [] => true
  | x :: a', y :: b' => N.eqb x y && str_eqb a' b'
  | _, _ => false
  end.

(** [str.lower] on code points (ASCII letters). *)
Definition lower_cp (c : N) : N :=
  if (65 <=? c) && (c <=? 90) then c + 32 else c.

Definition lower (s : pystr) : pystr := map lower_cp s.

(** [str.isspace] on one code point (the Unicode whitespace set used by
    [str.strip] and by the [\s] class of [re]). *)
Definition is_space (c : N) : bool :=
  ((9 <=? c) && (c <=? 13)) || ((28 <=? c) && (c <=? 32)) ||
  N.eqb c 133 || N.eqb c 160 || N.eqb c 5760 ||
  ((8192 <=? c) && (c <=? 8202)) || N.eqb c 8232 || N.eqb c 8233 ||
  N.eqb c 8239 || N.eqb c 8287 || N.eqb c 12288.

Fixpoint lstrip (s : pystr) : pystr :=
  match s with
  | c :: s' => if is_space c then lstrip s' else s
  | [] => []
  end.

(** [str.strip()]. *)
Definition strip (s : pystr) : pystr := rev (lstrip (rev (lstrip s))).

(** [needle in hay] for strings. *)
Fixpoint is_prefix (p s : pystr) : bool :=
  match p, s with
  | [], _ => true
  | x :: p', y :: s' => N.eqb x y && is_prefix p' s'
  | _, _ => false
  end.

Fixpoint contains (hay needle : pystr) : bool :=
  is_prefix needle hay ||
  match hay with
  | [] => false
  | _ :: hay' => contains hay' needle
  end.

(** A Python dict kept as an association list in insertion order. *)
Fixpoint dict_get {V} (k : pystr) (d : list (pystr * V)) : option V :=
  match d with
  | [] => None
  | (k', v) :: d' => if str_eqb k k' then Some v else dict_get k d'
  end.

(** ** Keyword buckets ([generate_manual_summary]) *)

Module ManualSummary.

(** [topics] of [TweetScraper.generate_manual_summary] in
    scripts/tweet_scraper.py. *)
Definition topics : list (pystr * list pystr) :=
  [ (lit "model", [lit "gpt"; lit "claude"; lit "gemini"; lit "llama"; lit "mistral"; lit "model"]);
    (lit "api", [lit "api"; lit "endpoint"; lit "integration"; lit "developer"]);
    (lit "research", [lit "research"; lit "paper"; lit "study"; lit "breakthrough"]);
    (lit "product", [lit "launch"; lit "release"; lit "announce"; lit "new"; lit "update"]);
    (lit "partnership", [lit "partner"; lit "collaboration"; lit "team"; lit "join"]) ].

(** [topics] of [generate_manual_summary] in
    scripts/twitter_scraper_scrapfly.py. *)
Definition topics_scrapfly : list (pystr * list pystr) :=
  [ (lit "product", [lit "launch"; lit "release"; lit "announce"; lit "new"; lit "update"; lit "feature"]);
    (lit "partnership", [lit "partner"; lit "collaboration"; lit "team"; lit "join"; lit "acquisition"]);
    (lit "research", [lit "research"; lit "paper"; lit "study"; lit "breakthrough"; lit "model"]);
    (lit "business", [lit "funding"; lit "investment"; lit "growth"; lit "revenue"; lit "enterprise"]);
    (lit "technical", [lit "api"; lit "endpoint"; lit "integration"; lit "developer"; lit "platform"]) ].

(** [any(keyword in tweet_lower for keyword in keywords)] *)
Definition any_keyword (tweet_lower : pystr) (keywords : list pystr) : bool :=
  existsb (fun k => contains tweet_lower k) keywords.

(** The inner [for category, keywords in topics.items(): ... break]:
    the category the tweet is appended to, if any. *)
Fixpoint first_category (tps : list (pystr * list pystr)) (tweet_lower : pystr)
  : option pystr :=
  match tps with
  | [] => None
  | (cat, kws) :: tps' =>
      if any_keyword tweet_lower kws then Some cat
      else first_category tps' tweet_lower
  end.

(** [categorized[category].append(tweet)], creating the key if absent. *)
Fixpoint append_to (cat : pystr) (tweet : pystr)
  (d : list (pystr * list pystr)) : list (pystr * list pystr) :=
  match d with
  | [] => [(cat, [tweet])]
  | (k, v) :: d' =>
      if str_eqb cat k then (k, v ++ [tweet]) :: d'
      else (k, v) :: append_to cat tweet d'
  end.

(** The categorisation loop over a list of tweets. *)
Fixpoint categorize_loop (tps : list (pystr * list pystr)) (tweets : list pystr)
  (acc : list (pystr * list pystr)) : list (pystr * list pystr) :=
  match tweets with
  | [] => acc
  | t :: ts =>
      let acc' := match first_category tps (lower t) with
                  | Some cat => append_to cat t acc
                  | None => acc
                  end in
      categorize_loop tps ts acc'
  end.

(** [categorized] as built by scripts/tweet_scraper.py
    ([for tweet in tweets[:20]]). *)
Definition categorized (tweets : list pystr) : list (pystr * list pystr) :=
  categorize_loop topics (firstn 20 tweets) [].

(** [categorized] as built by scripts/twitter_scraper_scrapfly.py
    ([for tweet in tweets]). *)
Definition categorized_scrapfly (tweets : list pystr) : list (pystr * list pystr) :=
  categorize_loop topics_scrapfly tweets [].

(** The posts put into category [cat] ([categorized.get(cat, [])]). *)
Definition bucket (d : list (pystr * list pystr)) (cat : pystr) : list pystr :=
  match dict_get cat d with Some v => v | None => [] end.

End ManualSummary.

(** ** General lemmas on the string layer *)

Lemma str_eqb_eq : forall a b, str_eqb a b = true <-> a = b.
Proof.
  induction a as [|x a IH]; destruct b as [|y b]; simpl; split; intro H;
    try congruence; try reflexivity.
  - apply andb_prop in H as [H1 H2]. apply N.eqb_eq in H1.
    apply IH in H2. subst. reflexivity.
  - inversion H; subst. rewrite N.eqb_refl. simpl. apply IH. reflexivity.
Qed.

Lemma str_eqb_refl : forall a, str_eqb a a = true.
Proof. intro a. apply str_eqb_eq. reflexivity. Qed.

Lemma str_eqb_neq : forall a b, str_eqb a b = false <-> a <> b.
Proof.
  intros a b. rewrite <- str_eqb_eq. destruct (str_eqb a b); split; congruence.
Qed.

Definition opt_str_eqb (a b : option pystr) : bool :=
  match a, b with
  | Some x, Some y => str_eqb x y
  | None, None => true
  | _, _ => false
  end.

Lemma opt_str_eqb_eq : forall a b, opt_str_eqb a b = true <-> a = b.
Proof.
  destruct a, b; simpl; split; intro H; try congruence.
  - apply str_eqb_eq in H. congruence.
  - inversion H. apply str_eqb_refl.
Qed.

(** ** Calendar and [datetime] *)

Module Cal.
Open Scope Z_scope.

Definition is_leap (y : Z) : bool :=
  (Z.eqb (y mod 4) 0 && negb (Z.eqb (y mod 100) 0)) || Z.eqb (y mod 400) 0.

Definition days_in_month (y m : Z) : Z :=
  if Z.eqb m 2 then (if is_leap y then 29 else 28)
  else if Z.eqb m 4 || Z.eqb m 6 || Z.eqb m 9 || Z.eqb m 11 then 30
  else 31.

(** [_days_before_month] of CPython's datetime module. *)
Definition days_before_month (y m : Z) : Z :=
  match m with
  | 1 => 0 | 2 => 31 | 3 => 59 | 4 => 90 | 5 => 120 | 6 => 151
  | 7 => 181 | 8 => 212 | 9 => 243 | 10 => 273 | 11 => 304 | _ => 334
  end + (if (2 <? m) && is_leap y then 1 else 0).

(** [_days_before_year]. *)
Definition days_before_year (y : Z) : Z :=
  let y1 := y - 1 in y1 * 365 + y1 / 4 - y1 / 100 + y1 / 400.

(** [date.toordinal()] ([_ymd2ord]). *)
Definition toordinal (y m d : Z) : Z :=
  days_before_year y + days_before_month y m + d.

(** The checks of [datetime(year, month, day, hour, minute, second)]. *)
Definition valid_date (y m d : Z) : bool :=
  (1 <=? y) && (y <=? 9999) && (1 <=? m) && (m <=? 12) &&
  (1 <=? d) && (d <=? days_in_month y m).

Definition valid_time (h mi s : Z) : bool :=
  (0 <=? h) && (h <=? 23) && (0 <=? mi) && (mi <=? 59) && (0 <=? s) && (s <=? 59).

End Cal.

(** A [datetime] without microseconds; [tzinfo] is the UTC offset in
    seconds of an aware value, [None] for a naive one. *)
Record datetime := mkdt {
  dt_year : Z; dt_month : Z; dt_day : Z;
  dt_hour : Z; dt_minute : Z; dt_second : Z;
  dt_tzinfo : option Z }.

(** [pytz.UTC.localize(d)]. *)
Definition localize_utc (d : datetime) : datetime :=
  mkdt d.(dt_year) d.(dt_month) d.(dt_day) d.(dt_hour) d.(dt_minute)
       d.(dt_second) (Some 0%Z).

(** Seconds from 0001-01-01 00:00 of the wall-clock fields. *)
Definition dt_wall_seconds (d : datetime) : Z :=
  ((Cal.toordinal d.(dt_year) d.(dt_month) d.(dt_day)) * 86400 +
   d.(dt_hour) * 3600 + d.(dt_minute) * 60 + d.(dt_second))%Z.

(** [a <= b] on datetimes: compares the instants of two aware values or
    the fields of two naive ones, and raises [TypeError] ([None]) when one
    is naive and the other aware. *)
Definition dt_le (a b : datetime) : option bool :=
  match a.(dt_tzinfo), b.(dt_tzinfo) with
  | Some oa, Some ob => Some (dt_wall_seconds a - oa <=? dt_wall_seconds b - ob)%Z
  | None, None => Some (dt_wall_seconds a <=? dt_wall_seconds b)%Z
  | _, _ => None
  end.

(** ** [datetime.strptime] (CPython's [_strptime], C locale)

    A format is compiled to a sequence of tokens: a literal character, a
    run of whitespace (replaced by [\s+]) or a directive.  The compiled
    regular expression is matched with [IGNORECASE] from the start of the
    string; the first match in backtracking order is taken, and any
    unconverted rest is a [ValueError]. *)

Module Strptime.

Inductive directive := Db | Dd | DY | DI | DM | Dp | DH | Dm | DS.

Inductive ftok := FLit (c : N) | FWs | FDir (d : directive).

Definition directive_of (c : N) : option directive :=
  if N.eqb c 98 then Some Db else if N.eqb c 100 then Some Dd
  else if N.eqb c 89 then Some DY else if N.eqb c 73 then Some DI
  else if N.eqb c 77 then Some DM else if N.eqb c 112 then Some Dp
  else if N.eqb c 72 then Some DH else if N.eqb c 109 then Some Dm
  else if N.eqb c 83 then Some DS else None.

(** [TimeRE.pattern]: whitespace runs become [\s+], [%x] a directive.
    Only the directives used by the repository's formats are modelled;
    any other [%x] is kept as two literal characters. *)
Fixpoint compile_chars (fmt : pystr) : list ftok :=
  match fmt with
  | [] => []
  | c :: rest =>
      if is_space c then
        FWs :: compile_chars rest
      else if N.eqb c 37 then
        match rest with
        | d :: rest' =>
            match directive_of d with
            | Some dir => FDir dir :: compile_chars rest'
            | None => FLit c :: FLit d :: compile_chars rest'
            end
        | [] => [FLit c]
        end
      else FLit c :: compile_chars rest
  end.

(** One [\s+] per run of whitespace. *)
Fixpoint squash_ws (ts : list ftok) : list ftok :=
  match ts with
  | FWs :: ((FWs :: _) as r) => squash_ws r
  | t :: r => t :: squash_ws r
  | [] => []
  end.

Definition compile (fmt : pystr) : list ftok := squash_ws (compile_chars fmt).

(** Character classes of the directive regexes. *)
Inductive cls := CRange (lo hi : N) | CExact (c : N).

Definition cls_match (k : cls) (c : N) : bool :=
  match k with
  | CRange lo hi => (lo <=? c) && (c <=? hi)
  | CExact e => N.eqb (lower_cp c) (lower_cp e)
  end.

Definition DIG := CRange 48 57.
Definition C (c : N) := CExact c.

Definition word (s : pystr) : list cls := map CExact s.

(** The alternatives of each directive's regex, in regex order. *)
Definition alts (d : directive) : list (list cls) :=
  match d with
  | Dd => [[C 51; CRange 48 49]; [CRange 49 50; DIG]; [C 48; CRange 49 57];
           [CRange 49 57]; [C 32; CRange 49 57]]
  | DH => [[C 50; CRange 48 51]; [CRange 48 49; DIG]; [DIG]]
  | DI => [[C 49; CRange 48 50]; [C 48; CRange 49 57]; [CRange 49 57]]
  | Dm => [[C 49; CRange 48 50]; [C 48; CRange 49 57]; [CRange 49 57]]
  | DM => [[CRange 48 53; DIG]; [DIG]]
  | DS => [[C 54; CRange 48 49]; [CRange 48 53; DIG]; [DIG]]
  | DY => [[DIG; DIG; DIG; DIG]]
  | Db => map (fun m => word (lit m))
            ["jan"; "feb"; "mar"; "apr"; "may"; "jun";
             "jul"; "aug"; "sep"; "oct"; "nov"; "dec"]%string
  | Dp => [word (lit "am"); word (lit "pm")]
  end.

Fixpoint match_alt (a : list cls) (s : pystr) : option (pystr * pystr) :=
  match a with
  | [] => Some ([], s)
  | k :: a' =>
      match s with
      | c :: s' =>
          if cls_match k c then
            match match_alt a' s' with
            | Some (cap, rest) => Some (c :: cap, rest)
            | None => None
            end
          else None
      | [] => None
      end
  end.

Fixpoint space_run (s : pystr) : nat :=
  match s with
  | c :: s' => if is_space c then S (space_run s') else O
  | [] => O
  end.

(** Lengths tried by the greedy [\s+]: longest first, down to one. *)
Fixpoint down_to_one (n : nat) : list nat :=
  match n with
  | O => []
  | S k => n :: down_to_one k
  end.

Definition captures := list (directive * pystr).

(** All matches of a token sequence against a prefix of the input, in
    backtracking order. *)
Fixpoint all_matches (toks : list ftok) (s : pystr) : list (captures * pystr) :=
  match toks with
  | [] => [([], s)]
  | FLit c :: ts =>
      match s with
      | x :: s' => if N.eqb (lower_cp x) (lower_cp c) then all_matches ts s' else []
      | [] => []
      end
  | FWs :: ts =>
      flat_map (fun k => all_matches ts (skipn k s)) (down_to_one (space_run s))
  | FDir d :: ts =>
      flat_map (fun a =>
        match match_alt a s with
        | Some (cap, rest) =>
            map (fun '(cs, r) => ((d, cap) :: cs, r)) (all_matches ts rest)
        | None => []
        end) (alts d)
  end.

Fixpoint capture (d : directive) (cs : captures) : option pystr :=
  match cs with
  | [] => None
  | (d', v) :: cs' =>
      if match d, d' with
         | Db, Db | Dd, Dd | DY, DY | DI, DI | DM, DM | Dp, Dp
         | DH, DH | Dm, Dm | DS, DS => true
         | _, _ => false
         end
      then Some v else capture d cs'
  end.

(** [int(...)] of a captured group (digits, possibly after a space). *)
Definition int_of (v : pystr) : Z :=
  fold_left (fun acc c =>
    if (48 <=? c) && (c <=? 57) then (acc * 10 + Z.of_N (c - 48))%Z else acc) v 0%Z.

Fixpoint index_of (x : pystr) (l : list pystr) (i : Z) : Z :=
  match l with
  | [] => 0%Z
  | y :: l' => if str_eqb x y then i else index_of x l' (i + 1)%Z
  end.

Definition month_names : list pystr :=
  map lit ["jan"; "feb"; "mar"; "apr"; "may"; "jun";
           "jul"; "aug"; "sep"; "oct"; "nov"; "dec"]%string.

(** The conversion loop of [_strptime] and the [datetime(...)] call:
    defaults 1900-01-01 00:00:00, [%I] combined with [%p], and the
    [ValueError] of an out-of-range field. *)
Definition build (cs : captures) : option datetime :=
  let year := match capture DY cs with Some v => int_of v | None => 1900%Z end in
  let month := match capture Dm cs, capture Db cs with
               | Some v, _ => int_of v
               | None, Some v => (index_of (lower v) month_names 0 + 1)%Z
               | None, None => 1%Z
               end in
  let day := match capture Dd cs with Some v => int_of v | None => 1%Z end in
  let hour := match capture DH cs, capture DI cs with
              | Some v, _ => int_of v
              | None, Some v =>
                  let h := int_of v in
                  let ampm := match capture Dp cs with Some p => lower p | None => [] end in
                  if str_eqb ampm [] || str_eqb ampm (lit "am") then
                    (if Z.eqb h 12 then 0%Z else h)
                  else if str_eqb ampm (lit "pm") then
                    (if Z.eqb h 12 then h else (h + 12)%Z)
                  else h
              | None, None => 0%Z
              end in
  let minute := match capture DM cs with Some v => int_of v | None => 0%Z end in
  let second := match capture DS cs with Some v => int_of v | None => 0%Z end in
  if Cal.valid_date year month day && Cal.valid_time hour minute second
  then Some (mkdt year month day hour minute second None)
  else None.

(** [datetime.strptime(s, fmt)]; [None] stands for [ValueError]. *)
Definition strptime (s fmt : pystr) : option datetime :=
  match all_matches (compile fmt) s with
  | [] => None
  | (cs, rest) :: _ =>
      match rest with
      | [] => build cs
      | _ => None
      end
  end.

End Strptime.

(** ** [TweetScraper._parse_tweet_date] (scripts/tweet_scraper.py) *)

Module ParseDate.

(** The separator of the Nitter formats as it appears in the source:
    U+00AC U+2211. *)
Definition SEP : pystr := [172; 8721].

(** The [formats] list, in order. *)
Definition formats : list pystr :=
  [ lit "%b %d, %Y " ++ SEP ++ lit " %I:%M %p UTC";
    lit "%b %d, %Y " ++ SEP ++ lit " %H:%M UTC";
    lit "%I:%M %p " ++ SEP ++ lit " %b %d, %Y";
    lit "%H:%M " ++ SEP ++ lit " %b %d, %Y";
    lit "%b %d, %Y at %I:%M %p UTC";
    lit "%b %d, %Y at %H:%M UTC";
    lit "%Y-%m-%d %H:%M:%S UTC";
    lit "%b %d, %Y" ].

(** [for fmt in formats: try: ... return tweet_date except ValueError:
    continue], with the [tzinfo is None] localisation. *)
Fixpoint try_formats (strptime : pystr -> pystr -> option datetime)
  (s : pystr) (fmts : list pystr) : option datetime :=
  match fmts with
  | [] => None
  | fmt :: fmts' =>
      match strptime s fmt with
      | Some d =>
          Some (match d.(dt_tzinfo) with None => localize_utc d | Some _ => d end)
      | None => try_formats strptime s fmts'
      end
  end.

Definition parse_tweet_date_with (strptime : pystr -> pystr -> option datetime)
  (date_str : pystr) : option datetime :=
  match date_str with
  | [] => None
  | _ => try_formats strptime (strip date_str) formats
  end.

Definition _parse_tweet_date (date_str : pystr) : option datetime :=
  parse_tweet_date_with Strptime.strptime date_str.

End ParseDate.

(** ** [TweetScraper._parse_tweet_date] (src/tweet_scraper.py) *)

Module ParseDateRoot.

(** The middle dot U+00B7 of this file's formats. *)
Definition MIDDOT : pystr := [183].

Definition fmt_12h : pystr := lit "%b %d, %Y " ++ MIDDOT ++ lit " %I:%M %p UTC".
Definition fmt_24h : pystr := lit "%b %d, %Y " ++ MIDDOT ++ lit " %H:%M UTC".

(** Two nested [try] blocks, each localising the naive result. *)
Definition _parse_tweet_date (date_str : pystr) : option datetime :=
  match Strptime.strptime date_str fmt_12h with
  | Some d => Some (localize_utc d)
  | None =>
      match Strptime.strptime date_str fmt_24h with
      | Some d => Some (localize_utc d)
      | None => None
      end
  end.

End ParseDateRoot.

(** ** [TweetScraper.get_user_tweets] (scripts/tweet_scraper.py)

    The parsed HTML is abstracted to what the loop reads from it: for
    each CSS selector of [selectors], the containers [soup.select] returns;
    for each container, the [get_text(strip=True)] of the first text element
    of the fallback chain, and the first date element of its chain with its
    [title] and [datetime] attributes and its stripped text. *)

Module Scrape.

Record date_elem := mkdate {
  de_title : option pystr;
  de_datetime : option pystr;
  de_text : pystr }.

Record container := mkcont {
  c_text : option pystr;
  c_date : option date_elem }.

Record response := mkresp {
  status_code : Z;
  (** [soup.select(sel)] for [sel] in ['div.timeline-item', 'div.tweet', 'article'] *)
  selected : list (list container) }.

(** Python truthiness of an optional string. *)
Definition truthy (s : option pystr) : option pystr :=
  match s with Some (_ :: _) as v => v | _ => None end.

(** [for selector in selectors: if containers: tweet_containers =
    containers[:10]; break] *)
Fixpoint first_nonempty (sels : list (list container)) : list container :=
  match sels with
  | [] => []
  | [] :: sels' => first_nonempty sels'
  | cs :: _ => firstn 10 cs
  end.

(** [date_str = date_element.get('title')], then [get('datetime')], then
    the element's text. *)
Definition date_str_of (de : date_elem) : pystr :=
  match truthy de.(de_title) with
  | Some s => s
  | None => match truthy de.(de_datetime) with
            | Some s => s
            | None => de.(de_text)
            end
  end.

Definition tweet_date_of (c : container) : option datetime :=
  match c.(c_date) with
  | None => None
  | Some de =>
      match date_str_of de with
      | [] => None
      | ds => ParseDate._parse_tweet_date ds
      end
  end.

(** One iteration of the container loop: [None] when the container is
    skipped ([continue], or an exception caught by the loop), otherwise the
    text of the post to append. *)
Definition step (start_date end_date : datetime) (c : container) : option pystr :=
  match c.(c_text) with
  | None => None
  | Some tweet_text =>
      if (List.length (strip tweet_text) <? 10)%nat then None
      else
        match tweet_date_of c with
        | None => Some tweet_text
        | Some td =>
            match dt_le start_date td with
            | None => None
            | Some false => None
            | Some true =>
                match dt_le td end_date with
                | Some true => Some tweet_text
                | _ => None
                end
            end
        end
  end.

(** [f"@{username}: {tweet_text}"] *)
Definition format_tweet (username tweet_text : pystr) : pystr :=
  lit "@" ++ username ++ lit ": " ++ tweet_text.

(** The container loop, with [if len(tweets) >= 8: break]. *)
Fixpoint collect (username : pystr) (start_date end_date : datetime)
  (cs : list container) (tweets : list pystr) : list pystr :=
  match cs with
  | [] => tweets
  | c :: cs' =>
      match step start_date end_date c with
      | None => collect username start_date end_date cs' tweets
      | Some t =>
          let tweets' := tweets ++ [format_tweet username t] in
          if (8 <=? List.length tweets')%nat then tweets'
          else collect username start_date end_date cs' tweets'
      end
  end.

(** [get_user_tweets(username, start_date, end_date)]: [current_instance]
    is the scraper's instance, [resp] the result of [session.get] ([None]
    when it raises). *)
Definition get_user_tweets (current_instance : option pystr) (resp : option response)
  (username : pystr) (start_date end_date : datetime) : list pystr :=
  match current_instance with
  | None => []
  | Some _ =>
      match resp with
      | None => []
      | Some r =>
          if negb (Z.eqb r.(status_code) 200) then []
          else
            match first_nonempty r.(selected) with
            | [] => []
            | cs => collect username start_date end_date cs []
            end
      end
  end.

(** [tweet_containers] as the loop sees it. *)
Definition containers_of (resp : option response) : list container :=
  match resp with Some r => first_nonempty r.(selected) | None => [] end.

(** The texts of the posts a container list yields, before the cap of 8. *)
Definition qualifying (start_date end_date : datetime) (cs : list container) : list pystr :=
  flat_map (fun c => match step start_date end_date c with Some t => [t] | None => [] end) cs.

End Scrape.

(** ** [get_date_range] (ai_summary_agent.py) and
    [TweetScraper._get_date_range] (scripts/tweet_scraper.py) *)

Module DateRange.
Open Scope Z_scope.

(** [d - timedelta(days=1)] on a datetime: the time fields are kept and
    the date becomes the previous calendar day; [None] is the
    [OverflowError] raised below 0001-01-01. *)
Definition minus_one_day (d : datetime) : option datetime :=
  let '(y, m, dd) := (d.(dt_year), d.(dt_month), d.(dt_day)) in
  let mk y' m' d' := Some (mkdt y' m' d' d.(dt_hour) d.(dt_minute) d.(dt_second) d.(dt_tzinfo)) in
  if 1 <? dd then mk y m (dd - 1)
  else if 1 <? m then mk y (m - 1) (Cal.days_in_month y (m - 1))
  else if 1 <? y then mk (y - 1) 12 31
  else None.

(** Both versions compute
    [end = datetime(now.year, now.month, now.day, 23, 59, 59, tzinfo=utc) - timedelta(days=1)]
    then
    [start = datetime(now.year, now.month, now.day, 0, 0, 0, tzinfo=utc) - timedelta(days=1)]
    and return [(start, end)]; [now] is [datetime.now(utc)]. *)
Definition get_date_range (now : datetime) : option (datetime * datetime) :=
  match minus_one_day (mkdt now.(dt_year) now.(dt_month) now.(dt_day) 23 59 59 (Some 0)) with
  | None => None
  | Some end_ =>
      match minus_one_day (mkdt now.(dt_year) now.(dt_month) now.(dt_day) 0 0 0 (Some 0)) with
      | None => None
      | Some start => Some (start, end_)
      end
  end.

End DateRange.

(** ** String constants and formatting helpers *)

Module Text.

(** The literals of the sources, as code points. *)
Definition prompt_ai_head : pystr :=
    lit "Analyze these tweets from AI companies and create a concise daily summary:" ++
    [10] ++
    lit "    " ++
    [10] ++
    lit "Key points to extract:" ++
    [10] ++
    lit "- New product announcements" ++
    [10] ++
    lit "- Technical breakthroughs" ++
    [10] ++
    lit "- Important partnerships" ++
    [10] ++
    lit "- Notable research findings" ++
    [10] ++
    lit "- Significant company updates" ++
    [10; 10] ++
    lit "Tweets:" ++
    [10].

Definition prompt_ai_tail : pystr :=
    [10; 10] ++
    lit "Summary (in bullet points):".

Definition prompt_scripts_head : pystr :=
    lit "Analyze these tweets from AI companies and create a concise daily summary:" ++
    [10] ++
    lit "        " ++
    [10] ++
    lit "Key points to extract:" ++
    [10] ++
    lit "- New product announcements" ++
    [10] ++
    lit "- Technical breakthroughs" ++
    [10] ++
    lit "- Important partnerships" ++
    [10] ++
    lit "- Notable research findings" ++
    [10] ++
    lit "- Significant company updates" ++
    [10] ++
    lit "- Industry trends and insights" ++
    [10; 10] ++
    lit "Please format the summary in clear bullet points with the most important information first." ++
    [10; 10] ++
    lit "Tweets:" ++
    [10].

Definition prompt_scripts_tail : pystr :=
    [10; 10] ++
    lit "Summary:".

Definition no_tweets_ai : pystr :=
    lit "No tweets found from monitored accounts in the last 24 hours.".

Definition failed_summary_ai : pystr :=
    lit "Failed to generate summary".

Definition demo_summary : pystr :=
    lit "**Demo Summary - AI Industry Updates**" ++
    [10; 10; 8218; 196; 162] ++
    lit " **Model Improvements**: Multiple companies releasing enhanced versions of their flagship models with better performance" ++
    [10; 8218; 196; 162] ++
    lit " **API Updates**: New features and improvements being rolled out to developer platforms  " ++
    [10; 8218; 196; 162] ++
    lit " **Research Advances**: Continued breakthroughs in multimodal AI and reasoning capabilities" ++
    [10; 8218; 196; 162] ++
    lit " **Enterprise Adoption**: Growing use of AI models in business applications" ++
    [10; 8218; 196; 162] ++
    lit " **Open Source**: Continued push for democratizing AI through open source initiatives" ++
    [10; 10] ++
    lit "*Note: This is a demo summary as tweet scraping services are currently unavailable. The monitoring system will resume normal operation when services are restored.*".

Definition manual_head : pystr :=
    lit "**Daily AI Summary - Manual Overview**" ++
    [10; 10].

Definition manual_note : pystr :=
    [10] ++
    lit "*Note: Manual summary generated due to API limitations. AI-powered analysis will resume when quota is restored.*".

Definition sample_posts_head : pystr :=
    [10] ++
    lit "**Sample Posts:**" ++
    [10].

Definition no_cat_line1 : pystr :=
    [8218; 196; 162] ++
    lit " Multiple posts from AI companies tracked" ++
    [10].

Definition no_cat_line2 : pystr :=
    [8218; 196; 162] ++
    lit " Content includes company updates and announcements" ++
    [10; 10].

Definition recent_posts_head : pystr :=
    lit "**Recent Posts:**" ++
    [10].

Definition bullet_sp : pystr :=
    [8218; 196; 162] ++
    lit " ".

Definition bullet_bold : pystr :=
    [8218; 196; 162] ++
    lit " **".

Definition updates_sep : pystr :=
    lit " Updates**: ".

Definition related_posts : pystr :=
    lit " related posts" ++
    [10].

Definition processed_sep : pystr :=
    [10; 10] ++
    lit "_Processed ".

Definition accounts_bullet : pystr :=
    lit " accounts " ++
    [8218; 196; 162] ++
    lit " ".

Definition total_tweets : pystr :=
    lit " total tweets_".

Definition demo_mode_sep : pystr :=
    [10; 10] ++
    lit "_Demo mode: ".

Definition demo_mode_tail : pystr :=
    lit " accounts processed " ++
    [8218; 196; 162] ++
    lit " Scraping services unavailable_".

Definition error_head : pystr :=
    [8218; 246; 8224; 212; 8719; 232] ++
    lit " *Error Alert*: The AI summary agent encountered a critical error:" ++
    [10] ++
    lit "```".

Definition error_tail : pystr :=
    lit "```" ++
    [10] ++
    lit "Please check the logs for more details.".

Definition title_ai : pystr :=
    lit "*" ++
    [240; 376; 8220; 176] ++
    lit " Daily AI Summary - ".

Definition title_scripts : pystr :=
    lit "*" ++
    [63743; 252; 236; 8734] ++
    lit " Daily AI Summary - ".

Definition title_scrapfly : pystr :=
    lit "*" ++
    [128240] ++
    lit " AI Business Week Summary - ".

(** [sep.join(items)] *)
Fixpoint join (sep : pystr) (items : list pystr) : pystr :=
  match items with
  | [] => []
  | [x] => x
  | x :: items' => x ++ sep ++ join sep items'
  end.

Fixpoint digits_rev (fuel : nat) (n : N) : pystr :=
  match fuel with
  | O => []
  | S fuel' =>
      (48 + n mod 10) :: (if (n <? 10) then [] else digits_rev fuel' (n / 10))
  end.

(** [str(n)] for a natural number. *)
Definition str_of_N (n : N) : pystr := rev (digits_rev (S (N.to_nat (N.log2 n))) n).

Definition str_of_nat (n : nat) : pystr := str_of_N (N.of_nat n).

Definition str_of_Z (z : Z) : pystr :=
  if (z <? 0)%Z then lit "-" ++ str_of_N (Z.to_N (- z)) else str_of_N (Z.to_N z).

(** A two-digit field of [strftime]. *)
Definition pad2 (z : Z) : pystr :=
  if (z <? 10)%Z then lit "0" ++ str_of_Z z else str_of_Z z.

(** [strftime('%Y-%m-%d')] (glibc: the year is printed without padding). *)
Definition ymd (d : datetime) : pystr :=
  str_of_Z d.(dt_year) ++ lit "-" ++ pad2 d.(dt_month) ++ lit "-" ++ pad2 d.(dt_day).

Definition day_names : list pystr :=
  map lit ["Monday"; "Tuesday"; "Wednesday"; "Thursday"; "Friday"; "Saturday"; "Sunday"]%string.

(** [strftime('%A')]: [weekday()] is [(toordinal() + 6) % 7], Monday 0. *)
Definition day_name (d : datetime) : pystr :=
  nth (Z.to_nat ((Cal.toordinal d.(dt_year) d.(dt_month) d.(dt_day) + 6) mod 7)) day_names [].

Definition is_alpha (c : N) : bool :=
  ((65 <=? c) && (c <=? 90)) || ((97 <=? c) && (c <=? 122)).

Definition upper_cp (c : N) : N :=
  if (97 <=? c) && (c <=? 122) then c - 32 else c.

(** [str.title()]: a letter is upper-cased after a non-letter and
    lower-cased after a letter. *)
Fixpoint title_from (prev_alpha : bool) (s : pystr) : pystr :=
  match s with
  | [] => []
  | c :: s' =>
      (if is_alpha c then (if prev_alpha then lower_cp c else upper_cp c) else c)
      :: title_from (is_alpha c) s'
  end.

Definition title (s : pystr) : pystr := title_from false s.

End Text.

(** ** Summaries *)

Module Summarize.
Import Text.

(** The prompt of [generate_summary] in ai_summary_agent.py:
    ["\n\n".join(tweets[:20])] substituted into the template. *)
Definition prompt_ai (tweets : list pystr) : pystr :=
  prompt_ai_head ++ join [10; 10] (firstn 20 tweets) ++ prompt_ai_tail.

(** The prompt of [TweetScraper.generate_summary] in scripts/tweet_scraper.py
    ([tweets[:25]]). *)
Definition prompt_scripts (tweets : list pystr) : pystr :=
  prompt_scripts_head ++ join [10; 10] (firstn 25 tweets) ++ prompt_scripts_tail.

(** The language model: the response content for a prompt, [None] when
    the call raises. *)
Definition llm := pystr -> option pystr.

(** [generate_summary] of ai_summary_agent.py: the prompts sent to the
    model and the returned string. *)
Definition generate_summary_ai (model : llm) (tweets : list pystr) : list pystr * pystr :=
  match tweets with
  | [] => ([], no_tweets_ai)
  | _ =>
      let prompt := prompt_ai tweets in
      ([prompt], match model prompt with
                 | Some content => strip content
                 | None => failed_summary_ai
                 end)
  end.

(** [TweetScraper.generate_manual_summary] of scripts/tweet_scraper.py. *)
Definition generate_manual_summary (tweets : list pystr) : pystr :=
  let categorized := ManualSummary.categorized tweets in
  let bullets l := flat_map (fun t => bullet_sp ++ t ++ [10]) l in
  manual_head ++
  match categorized with
  | _ :: _ =>
      flat_map (fun '(category, category_tweets) =>
        match category_tweets with
        | [] => []
        | _ => bullet_bold ++ title category ++ updates_sep ++
               str_of_nat (List.length category_tweets) ++ related_posts
        end) categorized ++
      sample_posts_head ++ bullets (firstn 5 tweets)
  | [] =>
      no_cat_line1 ++ no_cat_line2 ++ recent_posts_head ++ bullets (firstn 8 tweets)
  end ++ manual_note.

(** [TweetScraper.generate_summary] of scripts/tweet_scraper.py; the new
    client and the legacy API receive the same prompt, and any exception
    leads to the manual summary. *)
Definition generate_summary_scripts (model : llm) (tweets : list pystr) : list pystr * pystr :=
  match tweets with
  | [] => ([], demo_summary)
  | _ =>
      let prompt := prompt_scripts tweets in
      ([prompt], match model prompt with
                 | Some content => strip content
                 | None => generate_manual_summary tweets
                 end)
  end.

End Summarize.

(** ** The webhook ([send_to_slack]) *)

Module Slack.
Import Text.

Inductive json := JStr (s : pystr) | JBool (b : bool).

Record request := mkreq { req_url : pystr; req_json : list (pystr * json) }.

(** What the function reads and changes: the environment, the clock, the
    HTTP requests issued so far and the status the webhook answers with
    ([None] when [requests.post] raises). *)
Record world := mkworld {
  env : list (pystr * pystr);
  utcnow : datetime;
  sent : list request;
  webhook_status : option Z }.

Definition getenv (w : world) (k : pystr) : option pystr := dict_get k w.(env).

Definition post (w : world) (r : request) : bool * world :=
  (match w.(webhook_status) with Some st => Z.eqb st 200 | None => false end,
   mkworld w.(env) w.(utcnow) (w.(sent) ++ [r]) w.(webhook_status)).

(** The [text] field of each version. *)
Definition text_ai (w : world) (message : pystr) : pystr :=
  title_ai ++ ymd w.(utcnow) ++ lit "*" ++ [10; 10] ++ message.

Definition text_scripts (w : world) (message : pystr) : pystr :=
  title_scripts ++ ymd w.(utcnow) ++ lit "*" ++ [10; 10] ++ message.

Definition text_scrapfly (w : world) (message : pystr) : pystr :=
  title_scrapfly ++ day_name w.(utcnow) ++ lit ", " ++ ymd w.(utcnow) ++
  lit "*" ++ [10; 10] ++ message.

(** The shared shape of the three [send_to_slack]: read
    [SLACK_WEBHOOK_URL], return [False] when it is unset or empty, otherwise
    post [{"text": ..., "mrkdwn": True}] and return whether the answer is 200. *)
Definition send_with (text : world -> pystr -> pystr) (w : world) (message : pystr)
  : bool * world :=
  match getenv w (lit "SLACK_WEBHOOK_URL") with
  | None | Some [] => (false, w)
  | Some webhook_url =>
      post w (mkreq webhook_url
                [(lit "text", JStr (text w message)); (lit "mrkdwn", JBool true)])
  end.

Definition send_to_slack_ai := send_with text_ai.
Definition send_to_slack_scripts := send_with text_scripts.
Definition send_to_slack_scrapfly := send_with text_scrapfly.

Fixpoint json_get (k : pystr) (o : list (pystr * json)) : option json :=
  match o with
  | [] => None
  | (k', v) :: o' => if str_eqb k k' then Some v else json_get k o'
  end.

End Slack.

(** ** Mirror selection ([TweetScraper._find_working_source] and
    [_test_nitter_instance], scripts/tweet_scraper.py) *)

Module Prober.

Definition NITTER_INSTANCES : list pystr :=
  map lit ["https://nitter.poast.org"; "https://nitter.privacydev.net";
           "https://nitter.unixfox.eu"; "https://nitter.kavin.rocks";
           "https://nitter.net"; "https://nitter.rawbit.ninja";
           "https://nitter.1d4.us"; "https://nitter.moomoo.me"]%string.

(** The answer to [session.get(f"{instance}/OpenAI")]: the final URL after
    redirects, the status code, and the class lists of the [div] elements
    of the parsed page. *)
Record probe := mkprobe {
  final_url : pystr;
  p_status : Z;
  divs : list (list pystr) }.

(** [soup.find('div', class_=c)] *)
Definition find_div (c : pystr) (r : probe) : bool :=
  existsb (fun classes => existsb (str_eqb c) classes) r.(divs).

Definition bad_url_patterns : list pystr :=
  map lit ["status.d420.de"; "blocked"; "error"; "maintenance"]%string.

(** [self.instance_retry_delays]: instance to deadline (seconds). *)
Definition cooldowns := list (pystr * Z).

(** [d[k] = v] *)
Fixpoint dict_set (k : pystr) (v : Z) (d : cooldowns) : cooldowns :=
  match d with
  | [] => [(k, v)]
  | (k', v') :: d' => if str_eqb k k' then (k', v) :: d' else (k', v') :: dict_set k v d'
  end.

(** [_test_nitter_instance(instance)] at time [now]; [net] answers the probe
    request ([None] when it raises). *)
Definition test_nitter_instance (net : pystr -> option probe) (now : Z)
  (delays : cooldowns) (instance : pystr) : bool * cooldowns :=
  match match dict_get instance delays with
        | Some delay => (now <? delay)%Z
        | None => false
        end with
  | true => (false, delays)
  | false =>
      match net instance with
      | None => (false, delays)
      | Some r =>
          if existsb (fun pat => contains (lower r.(final_url)) pat) bad_url_patterns
          then (false, delays)
          else if Z.eqb r.(p_status) 200 then
            (find_div (lit "timeline") r || find_div (lit "profile") r ||
             find_div (lit "timeline-item") r, delays)
          else if Z.eqb r.(p_status) 429 then
            (false, dict_set instance (now + 120)%Z delays)
          else (false, delays)
      end
  end.

(** [_find_working_source]: the instance chosen ([current_instance]) and the
    cooldown map afterwards. *)
Fixpoint find_working_source (net : pystr -> option probe) (now : Z)
  (instances : list pystr) (delays : cooldowns) : option pystr * cooldowns :=
  match instances with
  | [] => (None, delays)
  | i :: rest =>
      let '(ok, delays') := test_nitter_instance net now delays i in
      if ok then (Some i, delays')
      else find_working_source net now rest delays'
  end.

End Prober.

(** ** Mirror selection in [ai_summary_agent.py]
    ([TwitterScraper.get_working_instance]).  The probe is the same request
    as above; [now] stands for [datetime.now()], read at each candidate. *)

Module ProberAI.
Import Prober.

Fixpoint get_working_instance (net : pystr -> option probe) (now : Z)
  (instances : list pystr) (delays : cooldowns) : option pystr * cooldowns :=
  match instances with
  | [] => (None, delays)
  | instance :: rest =>
      match match dict_get instance delays with
            | Some delay => (now <? delay)%Z
            | None => false
            end with
      | true => get_working_instance net now rest delays
      | false =>
          match net instance with
          | None => get_working_instance net now rest delays
          | Some r =>
              if contains r.(final_url) (lit "status.d420.de")
              then get_working_instance net now rest delays
              else if Z.eqb r.(p_status) 200 then (Some instance, delays)
              else if Z.eqb r.(p_status) 429 then
                get_working_instance net now rest (dict_set instance (now + 90)%Z delays)
              else get_working_instance net now rest delays
          end
      end
  end.

End ProberAI.

(** ** The two [main] functions *)

Module Mains.
Import Text Summarize Slack.

(** A run ends by returning or by letting an exception escape. *)
Inductive outcome := Returned (w : world) | Raised (w : world).

Definition X_ACCOUNTS : list pystr :=
  map lit ["OpenAI"; "xai"; "AnthropicAI"; "GoogleDeepMind"; "MistralAI";
           "AIatMeta"; "Cohere"; "perplexity_ai"; "scale_ai"; "runwayml";
           "dair_ai"]%string.

Definition AI_ACCOUNTS : list pystr :=
  map lit ["OpenAI"; "xai"; "AnthropicAI"; "GoogleDeepMind"; "MistralAI";
           "AIatMeta"; "Cohere"; "perplexity_ai"; "scale_ai"; "runwayml";
           "dair_ai"]%string.

(** [os.getenv(var)] is truthy. *)
Definition env_set (w : world) (k : pystr) : bool :=
  match getenv w k with None | Some [] => false | Some _ => true end.

(** [missing] is non-empty. *)
Definition missing_vars (w : world) : bool :=
  negb (env_set w (lit "OPENAI_API_KEY") && env_set w (lit "SLACK_WEBHOOK_URL")).

(** The account loop of scripts/tweet_scraper.py: [scrape] is
    [get_user_tweets] for one account, [None] when it raises (caught per
    account); the result is [(successful_accounts, all_tweets)]. *)
Fixpoint scrape_scripts (scrape : pystr -> option (list pystr)) (accounts : list pystr)
  (successful : nat) (all : list pystr) : nat * list pystr :=
  match accounts with
  | [] => (successful, all)
  | account :: rest =>
      match scrape account with
      | Some ((_ :: _) as tweets) => scrape_scripts scrape rest (S successful) (all ++ tweets)
      | _ => scrape_scripts scrape rest successful all
      end
  end.

(** Scraping happens only when [scraper.current_instance] is set. *)
Definition collect_scripts (instance : option pystr) (scrape : pystr -> option (list pystr))
  : nat * list pystr :=
  match instance with
  | Some _ => scrape_scripts scrape X_ACCOUNTS 0 []
  | None => (0%nat, [])
  end.

Definition message_scripts (model : llm) (successful : nat) (all : list pystr) : pystr :=
  match all with
  | [] =>
      demo_summary ++ demo_mode_sep ++ str_of_nat successful ++ lit "/" ++
      str_of_nat (List.length X_ACCOUNTS) ++ demo_mode_tail
  | _ =>
      snd (generate_summary_scripts model all) ++ processed_sep ++
      str_of_nat successful ++ lit "/" ++ str_of_nat (List.length X_ACCOUNTS) ++
      accounts_bullet ++ str_of_nat (List.length all) ++ total_tweets
  end.

(** [main] of scripts/tweet_scraper.py, for the instance [_find_working_source]
    chose.  Every step inside its [try] catches its own exceptions (the
    prober, the per-account loop, [generate_summary], [send_to_slack]), so
    the error-alert branch is not reached. *)
Definition main_scripts (w : world) (instance : option pystr)
  (scrape : pystr -> option (list pystr)) (model : llm) : outcome :=
  if missing_vars w then Returned w else
  let '(successful, all) := collect_scripts instance scrape in
  Returned (snd (send_to_slack_scripts w (message_scripts model successful all))).

(** The account loop of ai_summary_agent.py: an exception of
    [get_user_tweets] is not caught inside the loop. *)
Fixpoint scrape_ai (scrape : pystr -> option (list pystr)) (accounts : list pystr)
  (all : list pystr) : option (list pystr) :=
  match accounts with
  | [] => Some all
  | account :: rest =>
      match scrape account with
      | None => None
      | Some [] => scrape_ai scrape rest all
      | Some tweets => scrape_ai scrape rest (all ++ tweets)
      end
  end.

(** [main] of ai_summary_agent.py: [TwitterScraper()] raises when
    [get_working_instance] finds nothing, and the [except] clause re-raises. *)
Definition main_ai (w : world) (instance : option pystr)
  (scrape : pystr -> option (list pystr)) (model : llm) : outcome :=
  if missing_vars w then Returned w else
  match instance with
  | None => Raised w
  | Some _ =>
      match scrape_ai scrape AI_ACCOUNTS [] with
      | None => Raised w
      | Some [] => Returned w
      | Some all => Returned (snd (send_to_slack_ai w (snd (generate_summary_ai model all))))
      end
  end.

(** The world of a run's [sent] requests. *)
Definition world_of (o : outcome) : world :=
  match o with Returned w | Raised w => w end.

End Mains.

(** ** Nitter pages: the page loops of tweet_scraper.py and
    ai_summary_agent.py

    [session.get(url)] answers a [page] or raises ([None]).  A page is
    abstracted to what the two loops read from its HTML: its final URL, its
    status, the containers [soup.find_all('div', class_=c)] returns for the
    container classes the loops try, and the [show-more] div.  A container
    is abstracted to the stripped text of its [div.tweet-content] and
    [div.tweet-body], and the [title] of the date link under its
    [span.tweet-date] (the [<a>] inside it) and of its [a.tweet-date]. *)

Module Nitter.

(** The candidate list of ai_summary_agent.py, repeated verbatim in
    tweet_scraper.py. *)
Definition NITTER_INSTANCES : list pystr :=
  map lit ["https://nitter.net"; "https://nitter.privacydev.net";
           "https://nitter.poast.org"; "https://nitter.woodland.cafe";
           "https://nitter.weiler.rocks"; "https://nitter.rawbit.ninja";
           "https://nitter.moomoo.me"; "https://nitter.1d4.us";
           "https://nitter.kavin.rocks"; "https://nitter.unixfox.eu";
           "https://nitter.42l.fr"; "https://nitter.nixnet.services";
           "https://nitter.fdn.fr"; "https://nitter.40two.app";
           "https://nitter.mint.lgbt"]%string.

(** A container: [None] for an absent element; for a date element,
    [Some None] when the element carries no link with a [title]. *)
Record post := mkpost {
  ct_content : option pystr;
  ct_body : option pystr;
  ct_span_title : option (option pystr);
  ct_a_title : option (option pystr) }.

(** The [show-more] div: [None] when absent, [Some None] when it has no
    [<a>] with an [href], [Some (Some href)] otherwise. *)
Record page := mkpage {
  pg_url : pystr;
  pg_status : Z;
  pg_timeline_item : list post;
  pg_thread_line : list post;
  pg_tweet_body : list post;
  pg_tweet : list post;
  pg_show_more : option (option pystr) }.

(** The probe [session.get(f"{instance}/OpenAI")] of the instance
    selectors, through the same session. *)
Definition net_of (get : pystr -> option page) (instance : pystr) : option Prober.probe :=
  match get (instance ++ lit "/OpenAI") with
  | Some pg => Some (Prober.mkprobe pg.(pg_url) pg.(pg_status) [])
  | None => None
  end.

(** [TweetScraper._get_working_instance] of tweet_scraper.py and
    [TwitterScraper.get_working_instance] of ai_summary_agent.py: the same
    loop over the same list. *)
Definition get_working_instance (get : pystr -> option page) (now : Z)
  (delays : Prober.cooldowns) : option pystr * Prober.cooldowns :=
  ProberAI.get_working_instance (net_of get) now NITTER_INSTANCES delays.

(** [f"{self.current_instance}"] *)
Definition inst_str (c : option pystr) : pystr :=
  match c with Some s => s | None => lit "None" end.

(** An iteration of a [while] loop: [break] (or the loop's exit) with the
    final state, or the state of the next test of the loop condition. *)
Inductive loop_res (S : Type) := Stop (s : S) | Continue (s : S).
Arguments Stop {S} s.
Arguments Continue {S} s.

(** [start_date <= tweet_date <= end_date] inside the container loop's
    [try]: a [TypeError] skips the container like [False]. *)
Definition in_window (start_date end_date td : datetime) : bool :=
  match dt_le start_date td with
  | Some true => match dt_le td end_date with Some true => true | _ => false end
  | _ => false
  end.

End Nitter.

(** *** [TweetScraper.get_user_tweets] of tweet_scraper.py *)

Module RootScraper.
Import Nitter.

(** The loop's locals and the scraper's attributes it updates. *)
Record state := mkst {
  tweets : list pystr;
  load_more_url : option pystr;
  load_more_clicks : nat;
  current_instance : option pystr;
  instance_retry_delays : Prober.cooldowns }.

(** One container: [Some] the appended string, [None] for [continue]. *)
Definition parse_post (username : pystr) (start_date end_date : datetime) (c : post)
  : option pystr :=
  match c.(ct_content), c.(ct_span_title) with
  | Some tweet_text, Some (Some title) =>
      match ParseDateRoot._parse_tweet_date title with
      | None => None
      | Some td =>
          if in_window start_date end_date td
          then Some (lit "@" ++ username ++ lit ": " ++ tweet_text)
          else None
      end
  | _, _ => None
  end.

Definition parse_posts (username : pystr) (start_date end_date : datetime) (cs : list post)
  : list pystr :=
  flat_map (fun c => match parse_post username start_date end_date c with
                     | Some t => [t] | None => [] end) cs.

(** The body of [while load_more_clicks < max_load_more_clicks]. *)
Definition iter (get : pystr -> option page) (now : Z) (username : pystr)
  (start_date end_date : datetime) (st : state) : loop_res state :=
  let url := match st.(load_more_url) with
             | Some u => u
             | None => inst_str st.(current_instance) ++ lit "/" ++ username
             end in
  match get url with
  | None => Stop st
  | Some response =>
      if negb (Z.eqb response.(pg_status) 200) then
        match get_working_instance get now st.(instance_retry_delays) with
        | (None, d) => Stop (mkst st.(tweets) st.(load_more_url) st.(load_more_clicks) None d)
        | (Some c, d) =>
            Continue (mkst st.(tweets) st.(load_more_url) st.(load_more_clicks) (Some c) d)
        end
      else
        match match response.(pg_timeline_item) with
              | [] => response.(pg_tweet)
              | cs => cs
              end with
        | [] => Stop st
        | tweet_containers =>
            let tweets' := st.(tweets) ++ parse_posts username start_date end_date tweet_containers in
            match response.(pg_show_more) with
            | Some (Some cursor) =>
                let cursor' := match cursor with 63 :: c => c | _ => cursor end in
                Continue (mkst tweets'
                  (Some (inst_str st.(current_instance) ++ lit "/" ++ username ++ lit "?" ++ cursor'))
                  (S st.(load_more_clicks)) st.(current_instance) st.(instance_retry_delays))
            | _ =>
                Stop (mkst tweets' st.(load_more_url) st.(load_more_clicks)
                        st.(current_instance) st.(instance_retry_delays))
            end
        end
  end.

(** The loop, run for at most [fuel] iterations: [None] when it has not
    exited by then. *)
Fixpoint run (fuel : nat) (get : pystr -> option page) (now : Z) (username : pystr)
  (start_date end_date : datetime) (st : state) : option state :=
  if (st.(load_more_clicks) <? 5)%nat then
    match fuel with
    | O => None
    | S f =>
        match iter get now username start_date end_date st with
        | Stop st' => Some st'
        | Continue st' => run f get now username start_date end_date st'
        end
    end
  else Some st.

(** [get_user_tweets(username, start_date, end_date)] on a scraper whose
    [current_instance] and [instance_retry_delays] are given. *)
Definition get_user_tweets (fuel : nat) (get : pystr -> option page) (now : Z)
  (current : option pystr) (delays : Prober.cooldowns) (username : pystr)
  (start_date end_date : datetime) : option (list pystr) :=
  match run fuel get now username start_date end_date (mkst [] None 0 current delays) with
  | Some st => Some st.(tweets)
  | None => None
  end.

End RootScraper.

(** *** [TwitterScraper.get_user_tweets] of ai_summary_agent.py *)

Module AIScraper.
Import Nitter.

(** The date formats of this file: the middle dot is preceded by U+00C2. *)
Definition fmt_12h : pystr := lit "%b %d, %Y " ++ [194; 183] ++ lit " %I:%M %p UTC".
Definition fmt_24h : pystr := lit "%b %d, %Y " ++ [194; 183] ++ lit " %H:%M UTC".

(** The two nested [try] blocks of the container loop. *)
Definition parse_date (date_str : pystr) : option datetime :=
  match Strptime.strptime date_str fmt_12h with
  | Some d => Some (localize_utc d)
  | None =>
      match Strptime.strptime date_str fmt_24h with
      | Some d => Some (localize_utc d)
      | None => None
      end
  end.

Record state := mkst {
  tweets : list pystr;
  retry_count : nat;
  last_working_instance : option pystr;
  load_more_url : option pystr;
  load_more_clicks : nat;
  found_tweets_in_range : bool;
  current_instance : option pystr;
  instance_retry_delays : Prober.cooldowns }.

(** One container, with the fallbacks [div.tweet-body] for the text and
    [a.tweet-date] for the date element. *)
Definition parse_post (username : pystr) (start_date end_date : datetime) (c : post)
  : option pystr :=
  match match c.(ct_content) with Some t => Some t | None => c.(ct_body) end,
        match c.(ct_span_title) with Some l => Some l | None => c.(ct_a_title) end with
  | Some tweet_text, Some (Some date_str) =>
      match parse_date date_str with
      | None => None
      | Some td =>
          if in_window start_date end_date td
          then Some (lit "@" ++ username ++ lit ": " ++ tweet_text)
          else None
      end
  | _, _ => None
  end.

Definition parse_posts (username : pystr) (start_date end_date : datetime) (cs : list post)
  : list pystr :=
  flat_map (fun c => match parse_post username start_date end_date c with
                     | Some t => [t] | None => [] end) cs.

(** The container classes tried in order. *)
Definition tweet_containers (response : page) : list post :=
  match response.(pg_timeline_item) with
  | [] => match response.(pg_thread_line) with
          | [] => match response.(pg_tweet_body) with
                  | [] => response.(pg_tweet)
                  | cs => cs
                  end
          | cs => cs
          end
  | cs => cs
  end.

(** [if not found_tweets_in_range and not load_more_url: break] *)
Definition finish (st : state) : loop_res state :=
  match st.(found_tweets_in_range), st.(load_more_url) with
  | false, None => Stop st
  | _, _ => Continue st
  end.

(** The body of [while retry_count < max_retries]. *)
Definition iter (get : pystr -> option page) (now : Z) (username : pystr)
  (start_date end_date : datetime) (st : state) : loop_res state :=
  let selected :=
    match st.(last_working_instance) with
    | Some l =>
        match dict_get l st.(instance_retry_delays) with
        | None => (Some l, st.(instance_retry_delays))
        | Some _ => get_working_instance get now st.(instance_retry_delays)
        end
    | None => get_working_instance get now st.(instance_retry_delays)
    end in
  match selected with
  | (None, d) =>
      Stop (mkst st.(tweets) st.(retry_count) st.(last_working_instance) st.(load_more_url)
              st.(load_more_clicks) st.(found_tweets_in_range) None d)
  | (Some cur, d1) =>
      let base_url := cur ++ lit "/" ++ username in
      let url := match st.(load_more_url) with Some u => u | None => base_url end in
      (* another instance after a bad answer; none left costs a retry *)
      let switch d :=
        match get_working_instance get now d with
        | (None, d') =>
            Continue (mkst st.(tweets) (S st.(retry_count)) st.(last_working_instance)
                        st.(load_more_url) st.(load_more_clicks) st.(found_tweets_in_range) None d')
        | (Some c, d') =>
            Continue (mkst st.(tweets) st.(retry_count) st.(last_working_instance)
                        st.(load_more_url) st.(load_more_clicks) st.(found_tweets_in_range)
                        (Some c) d')
        end in
      match get url with
      | None =>
          let r := S st.(retry_count) in
          let st' := mkst st.(tweets) r st.(last_working_instance) st.(load_more_url)
                       st.(load_more_clicks) st.(found_tweets_in_range) (Some cur) d1 in
          if (3 <=? r)%nat then Stop st' else Continue st'
      | Some response =>
          if contains response.(pg_url) (lit "status.d420.de") then switch d1
          else if Z.eqb response.(pg_status) 429 then
            switch (Prober.dict_set cur (now + 90)%Z d1)
          else if negb (Z.eqb response.(pg_status) 200) then switch d1
          else
            let new := parse_posts username start_date end_date (tweet_containers response) in
            let found := st.(found_tweets_in_range) || match new with [] => false | _ => true end in
            let tweets' := st.(tweets) ++ new in
            match response.(pg_show_more) with
            | Some (Some cursor) =>
                let lm := Some (if is_prefix (lit "?") cursor then base_url ++ cursor
                                else base_url ++ lit "?" ++ cursor) in
                if (st.(load_more_clicks) <? 5)%nat then
                  Continue (mkst tweets' st.(retry_count) (Some cur) lm
                              (S st.(load_more_clicks)) found (Some cur) d1)
                else
                  finish (mkst tweets' st.(retry_count) (Some cur) lm
                            st.(load_more_clicks) found (Some cur) d1)
            | Some None =>
                finish (mkst tweets' st.(retry_count) (Some cur) st.(load_more_url)
                          st.(load_more_clicks) found (Some cur) d1)
            | None =>
                finish (mkst tweets' st.(retry_count) (Some cur) None
                          st.(load_more_clicks) found (Some cur) d1)
            end
      end
  end.

Fixpoint run (fuel : nat) (get : pystr -> option page) (now : Z) (username : pystr)
  (start_date end_date : datetime) (st : state) : option state :=
  if (st.(retry_count) <? 3)%nat then
    match fuel with
    | O => None
    | S f =>
        match iter get now username start_date end_date st with
        | Stop st' => Some st'
        | Continue st' => run f get now username start_date end_date st'
        end
    end
  else Some st.

Definition get_user_tweets (fuel : nat) (get : pystr -> option page) (now : Z)
  (current : option pystr) (delays : Prober.cooldowns) (username : pystr)
  (start_date end_date : datetime) : option (list pystr) :=
  match run fuel get now username start_date end_date
          (mkst [] 0 None None 0 false current delays) with
  | Some st => Some st.(tweets)
  | None => None
  end.

End AIScraper.

(** ** scripts/twitter_scraper_scrapfly.py *)

Module Scrapfly.
Import Text.

Definition X_ACCOUNTS : list pystr :=
  map lit ["OpenAI"; "xai"; "AnthropicAI"; "GoogleDeepMind"; "MistralAI";
           "AIatMeta"; "Cohere"; "perplexity_ai"; "scale_ai"; "runwayml";
           "dair_ai"]%string.

(** The values of the dictionaries built by [parse_tweet]: a path missing
    from the JSON gives [None] in [jmespath]'s result; the fields read
    below are JSON strings, integers, booleans or null. *)
Inductive pyval := VNone | VBool (b : bool) | VInt (z : Z) | VStr (s : pystr).

Definition tweet := list (pystr * pyval).

(** [tweet.get(k, default)] *)
Definition get (t : tweet) (k : pystr) (default : pyval) : pyval :=
  match dict_get k t with Some v => v | None => default end.

(** [str.split()] without arguments: the maximal runs of non-whitespace
    characters; [cur] is the current word, reversed. *)
Fixpoint split_from (cur : pystr) (s : pystr) : list pystr :=
  match s with
  | [] => match cur with [] => [] | _ => [rev cur] end
  | c :: s' =>
      if is_space c then
        match cur with
        | [] => split_from [] s'
        | _ => rev cur :: split_from [] s'
        end
      else split_from (c :: cur) s'
  end.

Definition split (s : pystr) : list pystr := split_from [] s.

(** [v > n] for an [int] [n]: a [bool] compares as [0] or [1]; [None] and
    [str] raise [TypeError] ([None] here). *)
Definition gt_int (v : pyval) (n : Z) : option bool :=
  match v with
  | VInt z => Some (n <? z)%Z
  | VBool b => Some (n <? if b then 1 else 0)%Z
  | VNone | VStr _ => None
  end.

(** [f"{v}"] *)
Definition fmt_val (v : pyval) : pystr :=
  match v with
  | VNone => lit "None"
  | VBool true => lit "True"
  | VBool false => lit "False"
  | VInt z => str_of_Z z
  | VStr s => s
  end.

(** [format_tweet_for_summary(tweet, username)]; [None] when it raises
    ([.strip()] on a non-string text, or a comparison with a non-number).
    [or] does not evaluate [retweets > 100] when [likes > 1000]. *)
Definition format_tweet_for_summary (tweet : tweet) (username : pystr) : option pystr :=
  match get tweet (lit "text") (VStr []) with
  | VStr s =>
      let text := join (lit " ") (split (strip s)) in
      let likes := get tweet (lit "favorite_count") (VInt 0) in
      let retweets := get tweet (lit "retweet_count") (VInt 0) in
      let engagement := lit " [" ++ [128077] ++ fmt_val likes ++ lit " " ++ [128260] ++
                        fmt_val retweets ++ lit "]" in
      let result (engagement_info : pystr) :=
        lit "@" ++ username ++ lit ": " ++ text ++ engagement_info in
      match gt_int likes 1000 with
      | None => None
      | Some true => Some (result engagement)
      | Some false =>
          match gt_int retweets 100 with
          | None => None
          | Some b => Some (result (if b then engagement else []))
          end
      end
  | _ => None
  end.

(** [tweet.get("text", "No text")[:50]] of the debug loop raises unless
    the value is a string. *)
Definition text_sliceable (t : tweet) : bool :=
  match get t (lit "text") (VStr (lit "No text")) with VStr _ => true | _ => false end.

(** [for tweet in recent_tweets[:5]: all_tweets.append(format...)]: the
    posts appended before a formatting error stay in [all_tweets]. *)
Fixpoint append_formatted (username : pystr) (ts : list tweet) (all : list pystr)
  : list pystr :=
  match ts with
  | [] => all
  | t :: ts' =>
      match format_tweet_for_summary t username with
      | Some s => append_formatted username ts' (all ++ [s])
      | None => all
      end
  end.

(** The account loop of [scrape_all_accounts]: [timeline] is
    [scrape_user_timeline(username, max_tweets=20)] ([None] when it
    raises), [recent] is [is_tweet_recent], which catches its own
    exceptions.  An exception inside the [try] ends the account's turn;
    the delays only sleep. *)
Fixpoint scrape_loop (timeline : pystr -> option (list tweet)) (recent : tweet -> bool)
  (accounts : list pystr) (all : list pystr) : list pystr :=
  match accounts with
  | [] => all
  | username :: rest =>
      let all' :=
        match timeline username with
        | None => all
        | Some tweets =>
            if forallb text_sliceable (firstn 3 tweets)
            then append_formatted username (firstn 5 (filter recent tweets)) all
            else all
        end in
      scrape_loop timeline recent rest all'
  end.

Definition scrape_all_accounts (timeline : pystr -> option (list tweet))
  (recent : tweet -> bool) : list pystr :=
  scrape_loop timeline recent X_ACCOUNTS [].

(** [strftime('%Y-%m-%d %H:%M UTC')] *)
Definition ymd_hm (d : datetime) : pystr :=
  ymd d ++ lit " " ++ pad2 d.(dt_hour) ++ lit ":" ++ pad2 d.(dt_minute) ++ lit " UTC".

(** [len([c for c in categorized.values() if c])] *)
Definition notable_activity (categorized : list (pystr * list pystr)) : nat :=
  List.length (filter (fun '(_, v) => match v with [] => false | _ => true end) categorized).

(** [generate_manual_summary(tweets)] at time [now]. *)
Definition generate_manual_summary (now : datetime) (tweets : list pystr) : pystr :=
  let categorized := ManualSummary.categorized_scrapfly tweets in
  lit "**AI Business Week Summary - Manual Analysis**" ++ [10] ++
  lit "*" ++ ymd_hm now ++ lit "*" ++ [10; 10] ++
  match categorized with
  | _ :: _ =>
      lit "**Key Business Developments:**" ++ [10] ++
      flat_map (fun '(category, category_tweets) =>
        match category_tweets with
        | [] => []
        | _ => [8226] ++ lit " **" ++ title category ++ lit "**: " ++
               str_of_nat (List.length category_tweets) ++
               lit " significant updates detected" ++ [10]
        end) categorized ++
      [10] ++ lit "**Activity Overview:**" ++ [10] ++
      [8226] ++ lit " Total significant posts analyzed: " ++
        str_of_nat (List.length tweets) ++ [10] ++
      [8226] ++ lit " Companies with notable activity: " ++
        str_of_nat (notable_activity categorized) ++ [10] ++
      [8226] ++ lit " Time period: Last 5 business days" ++ [10]
  | [] =>
      [8226] ++ lit " Routine social media activity detected" ++ [10] ++
      [8226] ++ lit " No major business developments identified" ++ [10] ++
      [8226] ++ lit " " ++ str_of_nat (List.length tweets) ++
        lit " posts analyzed from monitored companies" ++ [10]
  end ++
  [10] ++ lit "*Note: Manual analysis performed due to AI service unavailability. For detailed insights, AI-powered analysis will resume when service is restored.*".

End Scrapfly.

(** ** [main] of tweet_scraper.py *)

Module RootMain.
Import Text Summarize Slack.

(** The prompt of [TweetScraper.generate_summary]: the template of
    ai_summary_agent.py with an eight-space blank line. *)
Definition prompt_head : pystr :=
    lit "Analyze these tweets from AI companies and create a concise daily summary:" ++
    [10] ++
    lit "        " ++
    [10] ++
    lit "Key points to extract:" ++
    [10] ++
    lit "- New product announcements" ++
    [10] ++
    lit "- Technical breakthroughs" ++
    [10] ++
    lit "- Important partnerships" ++
    [10] ++
    lit "- Notable research findings" ++
    [10] ++
    lit "- Significant company updates" ++
    [10; 10] ++
    lit "Tweets:" ++
    [10].

(** ["\n\n".join(tweets[:20])] substituted into the template; the tail
    ["\n\nSummary (in bullet points):"] is the one of ai_summary_agent.py. *)
Definition prompt (tweets : list pystr) : pystr :=
  prompt_head ++ join [10; 10] (firstn 20 tweets) ++ prompt_ai_tail.

(** [TweetScraper.generate_summary]: the prompts sent and the result. *)
Definition generate_summary (model : llm) (tweets : list pystr) : list pystr * pystr :=
  match tweets with
  | [] => ([], no_tweets_ai)
  | _ =>
      let p := prompt tweets in
      ([p], match model p with
            | Some content => strip content
            | None => failed_summary_ai
            end)
  end.

Definition title : pystr := lit "*" ++ [128240] ++ lit " Daily AI Summary - ".

Definition text (w : world) (message : pystr) : pystr :=
  title ++ ymd w.(utcnow) ++ lit "*" ++ [10; 10] ++ message.

(** [TweetScraper.send_to_slack] *)
Definition send_to_slack := send_with text.

(** [main]: [TweetScraper()] raises when [_get_working_instance] finds
    nothing and the [except] clause re-raises; [scrape] is
    [get_user_tweets] for one account (it catches its own exceptions), on
    the eleven accounts of [Mains.X_ACCOUNTS], the list of this file. *)
Definition main (w : world) (instance : option pystr) (scrape : pystr -> list pystr)
  (model : llm) : Mains.outcome :=
  if Mains.missing_vars w then Mains.Returned w else
  match instance with
  | None => Mains.Raised w
  | Some _ =>
      match flat_map scrape Mains.X_ACCOUNTS with
      | [] => Mains.Returned w
      | all => Mains.Returned (snd (send_to_slack w (snd (generate_summary model all))))
      end
  end.

End RootMain.

(** * Properties *)

(** ** Keyword buckets *)

Section Buckets.
Import ManualSummary.

Definition classified_as (tps : list (pystr * list pystr)) (cat : pystr) (t : pystr) : bool :=
  opt_str_eqb (first_category tps (lower t)) (Some cat).

Lemma bucket_nil : forall cat, bucket [] cat = [].
Proof. reflexivity. Qed.

Lemma bucket_append_to : forall d cat t c,
  bucket (append_to cat t d) c =
  if str_eqb c cat then bucket d c ++ [t] else bucket d c.
Proof.
  induction d as [|[k v] d IH]; intros cat t c; unfold bucket in *; simpl.
  - destruct (str_eqb c cat); reflexivity.
  - destruct (str_eqb cat k) eqn:Hck.
    + apply str_eqb_eq in Hck. subst k. simpl.
      destruct (str_eqb c cat); reflexivity.
    + simpl. destruct (str_eqb c k) eqn:Hk.
      * apply str_eqb_eq in Hk. subst k.
        destruct (str_eqb c cat) eqn:Hc; [|reflexivity].
        apply str_eqb_eq in Hc. subst. rewrite str_eqb_refl in Hck. discriminate.
      * apply IH.
Qed.

Lemma bucket_categorize_loop : forall tps ts acc c,
  bucket (categorize_loop tps ts acc) c =
  bucket acc c ++ filter (classified_as tps c) ts.
Proof.
  intros tps ts. induction ts as [|t ts IH]; intros acc c; simpl.
  - rewrite app_nil_r. reflexivity.
  - rewrite IH. unfold classified_as at 2.
    destruct (first_category tps (lower t)) as [cat|] eqn:Hf; simpl.
    + rewrite bucket_append_to.
      destruct (str_eqb cat c) eqn:H1; destruct (str_eqb c cat) eqn:H2.
      * rewrite <- app_assoc. reflexivity.
      * apply str_eqb_eq in H1. subst. rewrite str_eqb_refl in H2. discriminate.
      * apply str_eqb_eq in H2. subst. rewrite str_eqb_refl in H1. discriminate.
      * reflexivity.
    + reflexivity.
Qed.

Lemma first_category_spec : forall tps l cat,
  first_category tps l = Some cat <->
  exists pre kws post,
    tps = pre ++ (cat, kws) :: post /\
    Forall (fun p => any_keyword l (snd p) = false) pre /\
    exists k, In k kws /\ contains l k = true.
Proof.
  induction tps as [|[c kws] tps IH]; intros l cat; simpl; split.
  - discriminate.
  - intros (pre & kws & post & Heq & _). destruct pre; discriminate.
  - destruct (any_keyword l kws) eqn:Ha.
    + intro H. inversion H; subst. exists [], kws, tps. split; [reflexivity|].
      split; [constructor|]. unfold any_keyword in Ha.
      apply existsb_exists in Ha. exact Ha.
    + intro H. apply IH in H as (pre & kws' & post & Heq & Hpre & Hk).
      exists ((c, kws) :: pre), kws', post. subst. split; [reflexivity|].
      split; [constructor; assumption|exact Hk].
  - intros (pre & kws' & post & Heq & Hpre & k & Hin & Hk).
    destruct pre as [|[c' kws''] pre]; simpl in Heq; inversion Heq; subst.
    + assert (any_keyword l kws' = true) as ->; [|reflexivity].
      apply existsb_exists. exists k. split; assumption.
    + inversion Hpre; subst. simpl in H1. rewrite H1.
      apply IH. exists pre, kws', post. split; [reflexivity|].
      split; [assumption|]. exists k. split; assumption.
Qed.

End Buckets.

(** C1 (counterexample): scripts/tweet_scraper.py only buckets
    [tweets[:20]]: a 21st post whose lowercased text contains the keyword
    "gpt" of category "model" is placed in no category at all (the
    resulting dict is empty). *)
Lemma manual_summary_21st_post_unbucketed :
  ManualSummary.first_category ManualSummary.topics
    (lower (lit "New GPT model")) = Some (lit "model") /\
  ManualSummary.categorized
    (repeat (lit "hello world") 20 ++ [lit "New GPT model"]) = [].
Proof. split; vm_compute; reflexivity. Qed.

(** C1 (amended): in scripts/tweet_scraper.py, the posts put into a
    category [cat] are exactly, in order, those among the first 20 posts
    whose first matching category in the [topics] order is [cat]; in
    scripts/twitter_scraper_scrapfly.py the same holds over all posts.  A
    category matches when one of its keywords occurs as a substring of the
    lowercased post, and the first matching category is the one preceded
    only by non-matching categories. *)
Theorem manual_summary_first_match : forall (tweets : list pystr) (cat : pystr),
  ManualSummary.bucket (ManualSummary.categorized tweets) cat =
    filter (classified_as ManualSummary.topics cat) (firstn 20 tweets) /\
  ManualSummary.bucket (ManualSummary.categorized_scrapfly tweets) cat =
    filter (classified_as ManualSummary.topics_scrapfly cat) tweets /\
  (forall tps t, classified_as tps cat t = true <->
     exists pre kws post,
       tps = pre ++ (cat, kws) :: post /\
       Forall (fun p => ManualSummary.any_keyword (lower t) (snd p) = false) pre /\
       exists k, In k kws /\ contains (lower t) k = true).
Proof.
  intros tweets cat. split; [|split].
  - unfold ManualSummary.categorized. rewrite bucket_categorize_loop. reflexivity.
  - unfold ManualSummary.categorized_scrapfly. rewrite bucket_categorize_loop.
    reflexivity.
  - intros tps t. unfold classified_as. rewrite opt_str_eqb_eq.
    apply first_category_spec.
Qed.

(** ** Date parsing *)

Definition localize_if_naive (d : datetime) : datetime :=
  match d.(dt_tzinfo) with None => localize_utc d | Some _ => d end.

Lemma try_formats_some : forall p s fmts d,
  ParseDate.try_formats p s fmts = Some d <->
  exists pre fmt post d0,
    fmts = pre ++ fmt :: post /\
    Forall (fun f => p s f = None) pre /\
    p s fmt = Some d0 /\ d = localize_if_naive d0.
Proof.
  intros p s. induction fmts as [|f fs IH]; intro d; simpl; split.
  - discriminate.
  - intros (pre & fmt & post & d0 & Heq & _). destruct pre; discriminate.
  - destruct (p s f) as [d0|] eqn:Hp.
    + intro H. inversion H; subst. exists [], f, fs, d0.
      repeat split; auto.
    + intro H. apply IH in H as (pre & fmt & post & d0 & Heq & Hpre & Hf & Hd).
      exists (f :: pre), fmt, post, d0. subst. repeat split; auto.
  - intros (pre & fmt & post & d0 & Heq & Hpre & Hf & Hd).
    destruct pre as [|f' pre]; simpl in Heq; inversion Heq; subst.
    + rewrite Hf. reflexivity.
    + inversion Hpre; subst. rewrite H1. apply IH.
      exists pre, fmt, post, d0. repeat split; auto.
Qed.

Lemma try_formats_none : forall p s fmts,
  ParseDate.try_formats p s fmts = None <-> Forall (fun f => p s f = None) fmts.
Proof.
  intros p s. induction fmts as [|f fs IH]; simpl; split; intro H; auto.
  - destruct (p s f) eqn:Hp; [discriminate|]. constructor; auto. apply IH; auto.
  - inversion H; subst. rewrite H2. apply IH; auto.
Qed.

(** C2: [_parse_tweet_date] returns [None] on the empty string; otherwise
    it tries the [formats] in order on [date_str.strip()] and returns the
    result of the first one that [strptime] accepts, localised to UTC when
    naive; it returns [None] exactly when the string is empty or no format
    parses it.  The two-format version of src/tweet_scraper.py behaves the
    same way on its own list (its results are always naive, hence always
    localised) and also returns [None] on the empty string. *)
Theorem parse_tweet_date_first_format : forall (date_str : pystr),
  (date_str = [] -> ParseDate._parse_tweet_date date_str = None) /\
  (forall d, ParseDate._parse_tweet_date date_str = Some d <->
     date_str <> [] /\
     exists pre fmt post d0,
       ParseDate.formats = pre ++ fmt :: post /\
       Forall (fun f => Strptime.strptime (strip date_str) f = None) pre /\
       Strptime.strptime (strip date_str) fmt = Some d0 /\
       d = localize_if_naive d0) /\
  (ParseDate._parse_tweet_date date_str = None <->
     date_str = [] \/
     Forall (fun f => Strptime.strptime (strip date_str) f = None) ParseDate.formats) /\
  ParseDateRoot._parse_tweet_date date_str =
    ParseDate.try_formats Strptime.strptime date_str
      [ParseDateRoot.fmt_12h; ParseDateRoot.fmt_24h] /\
  ParseDateRoot._parse_tweet_date [] = None.
Proof.
  intro date_str. unfold ParseDate._parse_tweet_date, ParseDate.parse_tweet_date_with.
  split; [|split; [|split]].
  - intros ->. reflexivity.
  - intro d. destruct date_str as [|c cs].
    + split; [discriminate|]. intros [H _]. congruence.
    + rewrite try_formats_some. split.
      * intro H. split; [discriminate|exact H].
      * intros [_ H]. exact H.
  - destruct date_str as [|c cs].
    + split; auto.
    + rewrite try_formats_none. split; auto.
      intros [H|H]; [discriminate|exact H].
  - split; [|vm_compute; reflexivity].
    unfold ParseDateRoot._parse_tweet_date; simpl.
    destruct (Strptime.strptime date_str ParseDateRoot.fmt_12h) as [d|] eqn:H1.
    + f_equal. unfold localize_if_naive.
      assert (dt_tzinfo d = None) as ->; [|reflexivity].
      unfold Strptime.strptime in H1.
      destruct (Strptime.all_matches _ _) as [|[cs rest] ?]; [discriminate|].
      destruct rest; [|discriminate]. unfold Strptime.build in H1.
      destruct (_ && _); [|discriminate]. inversion H1. reflexivity.
    + destruct (Strptime.strptime date_str ParseDateRoot.fmt_24h) as [d|] eqn:H2;
        [|reflexivity].
      f_equal. unfold localize_if_naive.
      assert (dt_tzinfo d = None) as ->; [|reflexivity].
      unfold Strptime.strptime in H2.
      destruct (Strptime.all_matches _ _) as [|[cs rest] ?]; [discriminate|].
      destruct rest; [|discriminate]. unfold Strptime.build in H2.
      destruct (_ && _); [|discriminate]. inversion H2. reflexivity.
Qed.

(** ** Post collection *)

Section Collect.
Import Scrape.

Lemma in_firstn_in {A} : forall n (l : list A) x, In x (firstn n l) -> In x l.
Proof.
  intros n l x H. rewrite <- (firstn_skipn n l). apply in_or_app. left. exact H.
Qed.

Lemma lstrip_length : forall s, (List.length (lstrip s) <= List.length s)%nat.
Proof.
  induction s as [|c s IH]; simpl; [lia|]. destruct (is_space c); simpl; lia.
Qed.

Lemma strip_length : forall s, (List.length (strip s) <= List.length s)%nat.
Proof.
  intro s. unfold strip. rewrite length_rev.
  pose proof (lstrip_length (rev (lstrip s))). rewrite length_rev in H.
  pose proof (lstrip_length s). lia.
Qed.

Lemma collect_firstn : forall u sd ed cs acc,
  (List.length acc < 8)%nat ->
  collect u sd ed cs acc =
  firstn 8 (acc ++ map (format_tweet u) (qualifying sd ed cs)).
Proof.
  intros u sd ed. induction cs as [|c cs IH]; intros acc Hlen;
    cbn [collect]; unfold qualifying; cbn [flat_map].
  - cbn [map]. rewrite app_nil_r. rewrite firstn_all2; [reflexivity|lia].
  - fold (qualifying sd ed cs).
    destruct (step sd ed c) as [t|] eqn:Hs; cbn [app map].
    + destruct (8 <=? List.length (acc ++ [format_tweet u t]))%nat eqn:H8.
      * apply Nat.leb_le in H8. rewrite length_app in H8. simpl in H8.
        rewrite firstn_app. rewrite firstn_all2 by lia.
        replace (8 - List.length acc)%nat with 1%nat by lia. reflexivity.
      * apply Nat.leb_gt in H8. rewrite IH by exact H8.
        rewrite <- app_assoc. reflexivity.
    + apply IH. exact Hlen.
Qed.

Lemma get_user_tweets_firstn : forall inst resp u sd ed,
  get_user_tweets inst resp u sd ed =
  match inst, resp with
  | Some _, Some r =>
      if Z.eqb r.(status_code) 200
      then firstn 8 (map (format_tweet u) (qualifying sd ed (first_nonempty r.(selected))))
      else []
  | _, _ => []
  end.
Proof.
  intros inst resp u sd ed. unfold get_user_tweets.
  destruct inst; [|reflexivity]. destruct resp as [r|]; [|reflexivity].
  destruct (Z.eqb (status_code r) 200); cbn [negb]; [|reflexivity].
  pose proof (collect_firstn u sd ed (first_nonempty (selected r)) [])
    as Hc. rewrite app_nil_l in Hc.
  destruct (first_nonempty (selected r)) as [|c cs] eqn:Hf.
  - reflexivity.
  - apply Hc. cbn. lia.
Qed.

Lemma in_qualifying : forall sd ed cs t,
  In t (qualifying sd ed cs) <-> exists c, In c cs /\ step sd ed c = Some t.
Proof.
  intros sd ed cs t. unfold qualifying. rewrite in_flat_map. split.
  - intros (c & Hc & Ht). exists c. split; [exact Hc|].
    destruct (step sd ed c); simpl in Ht; [|contradiction].
    destruct Ht as [->|[]]. reflexivity.
  - intros (c & Hc & Ht). exists c. split; [exact Hc|]. rewrite Ht. left. reflexivity.
Qed.

Lemma step_text : forall sd ed c t,
  step sd ed c = Some t ->
  c.(c_text) = Some t /\ (10 <= List.length (strip t))%nat.
Proof.
  intros sd ed c t. unfold step.
  destruct (c_text c) as [tt|]; [|discriminate].
  destruct (List.length (strip tt) <? 10)%nat eqn:H10; [discriminate|].
  apply Nat.ltb_ge in H10.
  destruct (tweet_date_of c) as [td|].
  - destruct (dt_le sd td) as [[|]|]; try discriminate.
    destruct (dt_le td ed) as [[|]|]; try discriminate.
    intro H; inversion H; subst; auto.
  - intro H; inversion H; subst; auto.
Qed.

End Collect.

(** C9: [get_user_tweets] of scripts/tweet_scraper.py returns at most 8
    strings; each is ["@" ++ username ++ ": "] followed by the text of one
    of the containers it read, a text of at least 10 characters once
    stripped; a container whose text is shorter than 10 characters is
    skipped.  More precisely the result is the first 8 of the qualifying
    posts. *)
Theorem get_user_tweets_at_most_8 :
  forall (inst : option pystr) (resp : option Scrape.response) (username : pystr)
         (start_date end_date : datetime),
  let res := Scrape.get_user_tweets inst resp username start_date end_date in
  (List.length res <= 8)%nat /\
  Forall (fun x => exists c t,
            In c (Scrape.containers_of resp) /\ c.(Scrape.c_text) = Some t /\
            (10 <= List.length (strip t))%nat /\
            x = Scrape.format_tweet username t) res /\
  (forall t d, (10 <= List.length t)%nat \/
     Scrape.step start_date end_date (Scrape.mkcont (Some t) d) = None) /\
  (res = [] \/
   res = firstn 8 (map (Scrape.format_tweet username)
          (Scrape.qualifying start_date end_date (Scrape.containers_of resp)))).
Proof.
  intros inst resp u sd ed res. subst res.
  rewrite get_user_tweets_firstn.
  assert (Hform : Forall (fun x => exists c t,
            In c (Scrape.containers_of resp) /\ c.(Scrape.c_text) = Some t /\
            (10 <= List.length (strip t))%nat /\ x = Scrape.format_tweet u t)
          (firstn 8 (map (Scrape.format_tweet u)
             (Scrape.qualifying sd ed (Scrape.containers_of resp))))).
  { apply Forall_forall. intros x Hx. apply in_firstn_in in Hx.
    apply in_map_iff in Hx as (t & <- & Ht).
    apply in_qualifying in Ht as (c & Hc & Hs).
    apply step_text in Hs as [Htext Hlen].
    exists c, t. repeat split; assumption. }
  split; [|split; [|split]].
  - destruct inst, resp as [r|]; try (simpl; lia).
    destruct (Z.eqb _ 200); [apply firstn_le_length|simpl; lia].
  - destruct inst, resp as [r|]; try constructor.
    destruct (Z.eqb _ 200); [exact Hform|constructor].
  - intros t d. destruct (Nat.le_gt_cases 10 (List.length t)) as [H|H]; [left; exact H|].
    right. unfold Scrape.step. simpl.
    pose proof (strip_length t).
    assert (Hlt : (List.length (strip t) <? 10)%nat = true) by (apply Nat.ltb_lt; lia).
    rewrite Hlt. reflexivity.
  - destruct inst, resp as [r|]; try (left; reflexivity).
    destruct (Z.eqb _ 200); [right; reflexivity|left; reflexivity].
Qed.

Lemma qualifying_app : forall sd ed l1 l2,
  Scrape.qualifying sd ed (l1 ++ l2) = Scrape.qualifying sd ed l1 ++ Scrape.qualifying sd ed l2.
Proof. intros. unfold Scrape.qualifying. apply flat_map_app. Qed.

Definition undated_post (t : pystr) : Scrape.container :=
  Scrape.mkcont (Some t) (Some (Scrape.mkdate (Some (lit "yesterday")) None [])).

Definition day_start : datetime := mkdt 2025 5 26 0 0 0 (Some 0%Z).
Definition day_end : datetime := mkdt 2025 5 26 23 59 59 (Some 0%Z).

(** C3 (counterexample): with nine undated containers, each with a date
    string ("yesterday") that no format parses and a text of at least 10
    characters, the ninth post is not returned: the loop stops at 8 posts. *)
Lemma undated_ninth_post_dropped :
  ParseDate._parse_tweet_date (lit "yesterday") = None /\
  existsb (str_eqb (Scrape.format_tweet (lit "OpenAI") (lit "ninth undated post")))
    (Scrape.get_user_tweets (Some (lit "https://nitter.poast.org"))
       (Some (Scrape.mkresp 200
          [repeat (undated_post (lit "an undated post")) 8 ++
           [undated_post (lit "ninth undated post")]]))
       (lit "OpenAI") day_start day_end) = false.
Proof. split; vm_compute; reflexivity. Qed.

(** C3 (amended): in scripts/tweet_scraper.py, a post the loop reads whose
    date is missing or unparseable ([tweet_date_of] is [None]) and whose
    stripped text has at least 10 characters is included in the result of
    [get_user_tweets] whenever fewer than 8 posts qualified before it; it is
    never dropped for lack of a date. *)
Theorem undated_post_included :
  forall (inst : pystr) (r : Scrape.response) (username : pystr)
         (start_date end_date : datetime)
         (pre post : list Scrape.container) (c : Scrape.container) (t : pystr),
  r.(Scrape.status_code) = 200%Z ->
  Scrape.first_nonempty r.(Scrape.selected) = pre ++ c :: post ->
  c.(Scrape.c_text) = Some t ->
  (10 <= List.length (strip t))%nat ->
  Scrape.tweet_date_of c = None ->
  (List.length (Scrape.qualifying start_date end_date pre) < 8)%nat ->
  In (Scrape.format_tweet username t)
     (Scrape.get_user_tweets (Some inst) (Some r) username start_date end_date).
Proof.
  intros inst r u sd ed pre post c t Hst Hsel Htext Hlen Hdate Hpre.
  rewrite get_user_tweets_firstn. rewrite Hst. simpl Z.eqb. cbv iota.
  rewrite Hsel, qualifying_app.
  assert (Hstep : Scrape.step sd ed c = Some t).
  { unfold Scrape.step. rewrite Htext.
    assert (H10 : (List.length (strip t) <? 10)%nat = false) by (apply Nat.ltb_ge; lia).
    rewrite H10, Hdate. reflexivity. }
  unfold Scrape.qualifying at 2. cbn [flat_map]. rewrite Hstep.
  fold (Scrape.qualifying sd ed post). cbn [app].
  rewrite map_app. cbn [map]. rewrite firstn_app, length_map.
  apply in_or_app. right.
  destruct (8 - List.length (Scrape.qualifying sd ed pre))%nat eqn:Hk; [lia|].
  left. reflexivity.
Qed.

Lemma undated_post_included_witness :
  In (Scrape.format_tweet (lit "OpenAI") (lit "an undated post"))
     (Scrape.get_user_tweets (Some (lit "https://nitter.poast.org"))
        (Some (Scrape.mkresp 200 [[undated_post (lit "an undated post")]]))
        (lit "OpenAI") day_start day_end).
Proof.
  apply (undated_post_included (lit "https://nitter.poast.org")
           (Scrape.mkresp 200 [[undated_post (lit "an undated post")]])
           (lit "OpenAI") day_start day_end [] [] (undated_post (lit "an undated post"))
           (lit "an undated post")); vm_compute; try reflexivity; lia.
Defined.

(** ** The date window *)

Section Calendar.
Open Scope Z_scope.

Lemma div_step : forall n z, 0 < n -> 1 <= z ->
  z / n - (z - 1) / n = if Z.eqb (z mod n) 0 then 1 else 0.
Proof.
  intros n z Hn Hz.
  pose proof (Z.div_mod (z - 1) n ltac:(lia)) as Hdm.
  pose proof (Z.mod_pos_bound (z - 1) n Hn) as Hb.
  set (q := (z - 1) / n) in *. set (r := (z - 1) mod n) in *.
  destruct (Z.eq_dec r (n - 1)) as [Hr|Hr].
  - assert (Hq : z / n = q + 1).
    { symmetry; apply Z.div_unique with (r := 0); lia. }
    assert (Hm : z mod n = 0).
    { symmetry; apply Z.mod_unique with (q := q + 1); lia. }
    rewrite Hq, Hm. simpl. lia.
  - assert (Hq : z / n = q).
    { symmetry; apply Z.div_unique with (r := r + 1); lia. }
    assert (Hm : z mod n = r + 1).
    { symmetry; apply Z.mod_unique with (q := q); lia. }
    rewrite Hq, Hm. destruct (Z.eqb_spec (r + 1) 0); lia.
Qed.

Lemma mod_zero_weaken : forall z a b, 0 < a -> 0 < b ->
  z mod (a * b) = 0 -> z mod a = 0.
Proof.
  intros z a b Ha Hb H.
  apply Z.mod_divide in H; [|lia]. apply Z.mod_divide; [lia|].
  destruct H as [k Hk]. exists (k * b). lia.
Qed.

Lemma days_before_year_step : forall y, 2 <= y ->
  Cal.days_before_year y =
  Cal.days_before_year (y - 1) + 365 + (if Cal.is_leap (y - 1) then 1 else 0).
Proof.
  intros y Hy. unfold Cal.days_before_year, Cal.is_leap.
  set (z := y - 1). replace (y - 1 - 1) with (z - 1) by lia.
  pose proof (div_step 4 z ltac:(lia) ltac:(lia)) as H4.
  pose proof (div_step 100 z ltac:(lia) ltac:(lia)) as H100.
  pose proof (div_step 400 z ltac:(lia) ltac:(lia)) as H400.
  pose proof (mod_zero_weaken z 4 25 ltac:(lia) ltac:(lia)) as W1.
  pose proof (mod_zero_weaken z 100 4 ltac:(lia) ltac:(lia)) as W2.
  simpl in W1, W2.
  destruct (Z.eqb_spec (z mod 400) 0) as [E400|E400];
  destruct (Z.eqb_spec (z mod 100) 0) as [E100|E100];
  destruct (Z.eqb_spec (z mod 4) 0) as [E4|E4]; simpl; lia.
Qed.

Lemma toordinal_minus_one_day : forall d d',
  Cal.valid_date d.(dt_year) d.(dt_month) d.(dt_day) = true ->
  DateRange.minus_one_day d = Some d' ->
  Cal.valid_date d'.(dt_year) d'.(dt_month) d'.(dt_day) = true /\
  Cal.toordinal d'.(dt_year) d'.(dt_month) d'.(dt_day) =
    Cal.toordinal d.(dt_year) d.(dt_month) d.(dt_day) - 1 /\
  d'.(dt_hour) = d.(dt_hour) /\ d'.(dt_minute) = d.(dt_minute) /\
  d'.(dt_second) = d.(dt_second) /\ d'.(dt_tzinfo) = d.(dt_tzinfo).
Proof.
  intros [y m dd h mi s tz] d' Hv Hm. unfold DateRange.minus_one_day in Hm. simpl in *.
  unfold Cal.valid_date in *. repeat rewrite andb_true_iff in Hv.
  repeat rewrite Z.leb_le in Hv.
  destruct Hv as [[[[[Hy1 Hy2] Hm1] Hm2] Hd1] Hd2].
  destruct (Z.ltb_spec 1 dd).
  { inversion Hm; subst; simpl. unfold Cal.toordinal.
    repeat split; try lia; try (repeat rewrite andb_true_iff; repeat rewrite Z.leb_le; lia). }
  destruct (Z.ltb_spec 1 m).
  { inversion Hm; subst; simpl. assert (dd = 1) by lia. subst dd.
    unfold Cal.toordinal, Cal.days_before_month, Cal.days_in_month.
    assert (m = 2 \/ m = 3 \/ m = 4 \/ m = 5 \/ m = 6 \/ m = 7 \/ m = 8 \/
            m = 9 \/ m = 10 \/ m = 11 \/ m = 12) as Hcases by lia.
    destruct (Cal.is_leap y);
    repeat destruct Hcases as [->|Hcases]; subst; simpl;
      repeat split; try lia; try (repeat rewrite andb_true_iff; repeat rewrite Z.leb_le; lia). }
  destruct (Z.ltb_spec 1 y); [|discriminate].
  inversion Hm; subst; simpl. assert (dd = 1) by lia. assert (m = 1) by lia. subst.
  unfold Cal.toordinal, Cal.days_before_month. simpl.
  rewrite (days_before_year_step y) by lia.
  destruct (Cal.is_leap (y - 1)); simpl; repeat split; try lia;
    try (unfold Cal.days_in_month; simpl; repeat rewrite andb_true_iff; repeat rewrite Z.leb_le; lia).
Qed.

End Calendar.

(** C5: for a current time [now] on a valid date after 0001-01-01, the
    date range is a pair [(start, end)] of UTC datetimes on the same
    calendar day, which is the day before [now]'s (its ordinal is one less),
    with [start] at 00:00:00 and [end] at 23:59:59, so [start < end]. *)
Theorem date_range_previous_day : forall now : datetime,
  Cal.valid_date now.(dt_year) now.(dt_month) now.(dt_day) = true ->
  (1 < Cal.toordinal now.(dt_year) now.(dt_month) now.(dt_day))%Z ->
  exists start end_,
    DateRange.get_date_range now = Some (start, end_) /\
    start.(dt_year) = end_.(dt_year) /\ start.(dt_month) = end_.(dt_month) /\
    start.(dt_day) = end_.(dt_day) /\
    Cal.valid_date start.(dt_year) start.(dt_month) start.(dt_day) = true /\
    Cal.toordinal start.(dt_year) start.(dt_month) start.(dt_day) =
      (Cal.toordinal now.(dt_year) now.(dt_month) now.(dt_day) - 1)%Z /\
    (start.(dt_hour), start.(dt_minute), start.(dt_second)) = (0, 0, 0)%Z /\
    (end_.(dt_hour), end_.(dt_minute), end_.(dt_second)) = (23, 59, 59)%Z /\
    start.(dt_tzinfo) = Some 0%Z /\ end_.(dt_tzinfo) = Some 0%Z /\
    dt_le start end_ = Some true /\ dt_le end_ start = Some false.
Proof.
  intros [y m d h mi s tz] Hv Hord. simpl in *.
  set (e0 := mkdt y m d 23 59 59 (Some 0%Z)).
  set (s0 := mkdt y m d 0 0 0 (Some 0%Z)).
  assert (Hsome : forall x, x = e0 \/ x = s0 -> exists x', DateRange.minus_one_day x = Some x').
  { intros x Hx. unfold DateRange.minus_one_day.
    assert (dt_year x = y /\ dt_month x = m /\ dt_day x = d) as (-> & -> & ->)
      by (destruct Hx; subst; auto).
    destruct (Z.ltb_spec 1 d); [eexists; reflexivity|].
    destruct (Z.ltb_spec 1 m); [eexists; reflexivity|].
    destruct (Z.ltb_spec 1 y); [eexists; reflexivity|].
    exfalso. unfold Cal.valid_date in Hv.
    repeat rewrite andb_true_iff in Hv; repeat rewrite Z.leb_le in Hv.
    assert (y = 1%Z) by lia. subst y.
    assert (m = 1%Z) by lia. assert (d = 1%Z) by lia. subst.
    vm_compute in Hord. discriminate. }
  destruct (Hsome e0 (or_introl eq_refl)) as [e' He].
  destruct (Hsome s0 (or_intror eq_refl)) as [s' Hs].
  pose proof (toordinal_minus_one_day e0 e' Hv He) as (Hve & Hoe & Hhe & Hme & Hse & Hte).
  pose proof (toordinal_minus_one_day s0 s' Hv Hs) as (Hvs & Hos & Hhs & Hms & Hss & Hts).
  exists s', e'. unfold DateRange.get_date_range. simpl.
  fold e0 s0. rewrite He, Hs.
  assert (Hdate : dt_year s' = dt_year e' /\ dt_month s' = dt_month e' /\ dt_day s' = dt_day e').
  { unfold DateRange.minus_one_day in He, Hs. subst e0 s0. simpl in He, Hs.
    destruct (Z.ltb 1 d); [inversion He; inversion Hs; auto|].
    destruct (Z.ltb 1 m); [inversion He; inversion Hs; auto|].
    destruct (Z.ltb 1 y); [inversion He; inversion Hs; auto|discriminate]. }
  destruct Hdate as (Hy & Hm & Hd).
  subst e0 s0. simpl in *.
  split; [reflexivity|].
  unfold dt_le, dt_wall_seconds.
  rewrite Hhs, Hms, Hss, Hhe, Hme, Hse, Hts, Hte, Hy, Hm, Hd.
  repeat split; try assumption.
  - f_equal. apply Z.leb_le. lia.
  - f_equal. apply Z.leb_gt. lia.
Qed.

Lemma date_range_previous_day_witness :
  exists start end_,
    DateRange.get_date_range (mkdt 2025 3 1 10 30 0 (Some 0%Z)) = Some (start, end_) /\
    start.(dt_year) = end_.(dt_year) /\ start.(dt_month) = end_.(dt_month) /\
    start.(dt_day) = end_.(dt_day) /\
    Cal.valid_date start.(dt_year) start.(dt_month) start.(dt_day) = true /\
    Cal.toordinal start.(dt_year) start.(dt_month) start.(dt_day) =
      (Cal.toordinal 2025 3 1 - 1)%Z /\
    (start.(dt_hour), start.(dt_minute), start.(dt_second)) = (0, 0, 0)%Z /\
    (end_.(dt_hour), end_.(dt_minute), end_.(dt_second)) = (23, 59, 59)%Z /\
    start.(dt_tzinfo) = Some 0%Z /\ end_.(dt_tzinfo) = Some 0%Z /\
    dt_le start end_ = Some true /\ dt_le end_ start = Some false.
Proof.
  apply (date_range_previous_day (mkdt 2025 3 1 10 30 0 (Some 0%Z)));
    vm_compute; reflexivity.
Defined.

(** ** Prompts *)

Lemma firstn_firstn_same {A} : forall n (l : list A), firstn n (firstn n l) = firstn n l.
Proof. intros n l. rewrite firstn_firstn, Nat.min_id. reflexivity. Qed.

Lemma firstn_S_nil {A} : forall n (l : list A), firstn (S n) l = [] -> l = [].
Proof. intros n [|x l]; simpl; congruence. Qed.

(** C6: [generate_summary] sends one prompt exactly when the list of posts
    is non-empty; the prompt is the template applied to the first 20 posts
    (ai_summary_agent.py), resp. 25 posts (scripts/tweet_scraper.py), joined
    with blank lines, so it is the same as for the list cut to that bound. *)
Theorem generate_summary_prompt_bound : forall (model : Summarize.llm) (tweets : list pystr),
  fst (Summarize.generate_summary_ai model tweets) =
    match tweets with
    | [] => []
    | _ => [Text.prompt_ai_head ++ Text.join [10; 10] (firstn 20 tweets) ++ Text.prompt_ai_tail]
    end /\
  fst (Summarize.generate_summary_ai model tweets) =
    fst (Summarize.generate_summary_ai model (firstn 20 tweets)) /\
  fst (Summarize.generate_summary_scripts model tweets) =
    match tweets with
    | [] => []
    | _ => [Text.prompt_scripts_head ++ Text.join [10; 10] (firstn 25 tweets) ++
            Text.prompt_scripts_tail]
    end /\
  fst (Summarize.generate_summary_scripts model tweets) =
    fst (Summarize.generate_summary_scripts model (firstn 25 tweets)).
Proof.
  intros model tweets.
  unfold Summarize.generate_summary_ai, Summarize.generate_summary_scripts,
    Summarize.prompt_ai, Summarize.prompt_scripts.
  destruct tweets as [|x l]; [repeat split|].
  change (firstn 20 (x :: l)) with (x :: firstn 19 l).
  change (firstn 25 (x :: l)) with (x :: firstn 24 l).
  cbn [fst].
  change (firstn 20 (x :: firstn 19 l)) with (x :: firstn 19 (firstn 19 l)).
  change (firstn 25 (x :: firstn 24 l)) with (x :: firstn 24 (firstn 24 l)).
  rewrite !firstn_firstn_same. repeat split.
Qed.

(** ** The webhook *)

Lemma digits_rev_ge : forall fuel n, Forall (fun c => 45 <= c) (Text.digits_rev fuel n).
Proof.
  induction fuel as [|fuel IH]; intro n; cbn [Text.digits_rev]; [constructor|].
  constructor; [apply N.le_trans with 48; [lia|apply N.le_add_r]|]. destruct (n <? 10); [constructor|apply IH].
Qed.

Lemma ymd_ge : forall d, Forall (fun c => 45 <= c) (Text.ymd d).
Proof.
  intro d.
  assert (HN : forall n, Forall (fun c => 45 <= c) (Text.str_of_N n)).
  { intro n. unfold Text.str_of_N. apply Forall_rev. apply digits_rev_ge. }
  assert (HZ : forall z, Forall (fun c => 45 <= c) (Text.str_of_Z z)).
  { intro z. unfold Text.str_of_Z. destruct (z <? 0)%Z;
      [apply Forall_app; split; [repeat constructor; vm_compute; discriminate|]|]; apply HN. }
  assert (H2 : forall z, Forall (fun c => 45 <= c) (Text.pad2 z)).
  { intro z. unfold Text.pad2. destruct (z <? 10)%Z;
      [apply Forall_app; split; [repeat constructor; vm_compute; discriminate|]|]; apply HZ. }
  unfold Text.ymd. repeat (apply Forall_app; split);
    try apply HZ; try apply H2; repeat constructor; vm_compute; discriminate.
Qed.

Lemma day_name_ge : forall d, Forall (fun c => 45 <= c) (Text.day_name d).
Proof.
  intro d. unfold Text.day_name.
  assert (Hall : Forall (fun s => Forall (fun c => 45 <= c) s) Text.day_names).
  { vm_compute. repeat constructor; discriminate. }
  set (k := Z.to_nat _). clearbody k.
  destruct (Nat.lt_ge_cases k (List.length Text.day_names)) as [Hk|Hk].
  - rewrite Forall_forall in Hall. apply Hall. apply nth_In. exact Hk.
  - rewrite nth_overflow by exact Hk. constructor.
Qed.

Lemma no_newline : forall s, Forall (fun c => 45 <= c) s -> ~ In 10 s.
Proof.
  intros s H Hin. rewrite Forall_forall in H. specialize (H 10 Hin). lia.
Qed.

Lemma is_prefix_app : forall p s, is_prefix p (p ++ s) = true.
Proof. induction p as [|x p IH]; intro s; simpl; [reflexivity|]. rewrite N.eqb_refl. apply IH. Qed.

Lemma contains_app : forall a b s, contains (a ++ b ++ s) b = true.
Proof.
  induction a as [|x a IH]; intros b s; simpl.
  - destruct b; simpl; [destruct s; reflexivity|].
    rewrite N.eqb_refl, is_prefix_app. reflexivity.
  - rewrite IH. apply orb_true_r.
Qed.

Definition text_payload_ok (w : Slack.world) (message : pystr) (r : Slack.request) : Prop :=
  exists title_line,
    Slack.json_get (lit "text") r.(Slack.req_json) =
      Some (Slack.JStr (title_line ++ [10; 10] ++ message)) /\
    ~ In 10 title_line /\ contains title_line (Text.ymd w.(Slack.utcnow)) = true.

Lemma send_with_payload : forall text w message,
  (forall w m, exists tl, text w m = tl ++ [10; 10] ++ m /\ ~ In 10 tl /\
                          contains tl (Text.ymd w.(Slack.utcnow)) = true) ->
  exists new, Slack.sent (snd (Slack.send_with text w message)) = Slack.sent w ++ new /\
    Forall (text_payload_ok w message) new.
Proof.
  intros text w message Htext. unfold Slack.send_with.
  destruct (Slack.getenv w (lit "SLACK_WEBHOOK_URL")) as [[|c u]|].
  - exists []. rewrite app_nil_r. split; [reflexivity|constructor].
  - eexists. split; [reflexivity|]. constructor; [|constructor].
    destruct (Htext w message) as (tl & Heq & Hnl & Hc).
    exists tl. simpl. rewrite Heq. auto.
  - exists []. rewrite app_nil_r. split; [reflexivity|constructor].
Qed.

Lemma not_in_of_existsb : forall l, existsb (N.eqb 10) l = false -> ~ In 10 l.
Proof.
  intros l H Hin. assert (existsb (N.eqb 10) l = true) by (apply existsb_exists; eauto using N.eqb_refl).
  congruence.
Qed.

Lemma not_in_app : forall (x : N) a b, ~ In x a -> ~ In x b -> ~ In x (a ++ b).
Proof. intros x a b Ha Hb Hin. apply in_app_iff in Hin as [H|H]; contradiction. Qed.

(** C7: every request [send_to_slack] issues (in each of the three
    versions) carries a JSON object whose ["text"] field is a string made of
    a title line (no line break, containing the UTC date as [%Y-%m-%d]), a
    blank line, then the summary message. *)
Theorem send_to_slack_text_field : forall (w : Slack.world) (message : pystr),
  (exists new, Slack.sent (snd (Slack.send_to_slack_ai w message)) = Slack.sent w ++ new /\
     Forall (text_payload_ok w message) new) /\
  (exists new, Slack.sent (snd (Slack.send_to_slack_scripts w message)) = Slack.sent w ++ new /\
     Forall (text_payload_ok w message) new) /\
  (exists new, Slack.sent (snd (Slack.send_to_slack_scrapfly w message)) = Slack.sent w ++ new /\
     Forall (text_payload_ok w message) new).
Proof.
  intros w message.
  assert (Hymd : forall w, ~ In 10 (Text.ymd (Slack.utcnow w))).
  { intro w'. apply no_newline. apply ymd_ge. }
  assert (Hstar : ~ In 10 (lit "*")) by (apply not_in_of_existsb; reflexivity).
  split; [|split]; apply send_with_payload; intros w' m.
  - exists (Text.title_ai ++ Text.ymd (Slack.utcnow w') ++ lit "*").
    unfold Slack.text_ai. rewrite <- !app_assoc. split; [reflexivity|split].
    + apply not_in_app; [apply not_in_of_existsb; reflexivity|].
      apply not_in_app; [apply Hymd|exact Hstar].
    + apply contains_app.
  - exists (Text.title_scripts ++ Text.ymd (Slack.utcnow w') ++ lit "*").
    unfold Slack.text_scripts. rewrite <- !app_assoc. split; [reflexivity|split].
    + apply not_in_app; [apply not_in_of_existsb; reflexivity|].
      apply not_in_app; [apply Hymd|exact Hstar].
    + apply contains_app.
  - exists (Text.title_scrapfly ++ Text.day_name (Slack.utcnow w') ++ lit ", " ++
            Text.ymd (Slack.utcnow w') ++ lit "*").
    unfold Slack.text_scrapfly. rewrite <- !app_assoc. split; [reflexivity|split].
    + apply not_in_app; [apply not_in_of_existsb; reflexivity|].
      apply not_in_app; [apply no_newline, day_name_ge|].
      apply not_in_app; [apply not_in_of_existsb; reflexivity|].
      apply not_in_app; [apply Hymd|exact Hstar].
    + rewrite (app_assoc Text.title_scrapfly), (app_assoc _ (lit ", ")).
      apply contains_app.
Qed.

(** C10: when [SLACK_WEBHOOK_URL] is unset or empty, [send_to_slack]
    (each version) returns [False] and leaves the world unchanged: no HTTP
    request is issued. *)
Theorem send_to_slack_no_webhook : forall (w : Slack.world) (message : pystr),
  Slack.getenv w (lit "SLACK_WEBHOOK_URL") = None \/
  Slack.getenv w (lit "SLACK_WEBHOOK_URL") = Some [] ->
  Slack.send_to_slack_ai w message = (false, w) /\
  Slack.send_to_slack_scripts w message = (false, w) /\
  Slack.send_to_slack_scrapfly w message = (false, w).
Proof.
  intros w message Henv.
  unfold Slack.send_to_slack_ai, Slack.send_to_slack_scripts,
    Slack.send_to_slack_scrapfly, Slack.send_with.
  destruct Henv as [-> | ->]; repeat split.
Qed.

Definition world_without_webhook : Slack.world :=
  Slack.mkworld [(lit "OPENAI_API_KEY", lit "sk-test")] (mkdt 2025 5 27 9 0 0 (Some 0%Z))
    [] (Some 200%Z).

Lemma send_to_slack_no_webhook_witness :
  Slack.send_to_slack_ai world_without_webhook (lit "summary") = (false, world_without_webhook) /\
  Slack.send_to_slack_scripts world_without_webhook (lit "summary") = (false, world_without_webhook) /\
  Slack.send_to_slack_scrapfly world_without_webhook (lit "summary") = (false, world_without_webhook).
Proof.
  apply send_to_slack_no_webhook. left. vm_compute. reflexivity.
Defined.

(** ** Mirror selection *)

(** Both selectors walk the candidate list with one probe per candidate
    that may update the cooldown map at the probed candidate only; the
    generic loop below is that walk. *)

Section Scan.
Variable test : Prober.cooldowns -> pystr -> bool * Prober.cooldowns.
Variable ok : Prober.cooldowns -> pystr -> bool.
Hypothesis test_fst : forall d i, fst (test d i) = ok d i.
Hypothesis test_other : forall d i j, j <> i ->
  dict_get j (snd (test d i)) = dict_get j d.
Hypothesis ok_ext : forall d d' i, dict_get i d' = dict_get i d -> ok d' i = ok d i.
Hypothesis test_self : forall d d' i, dict_get i d' = dict_get i d ->
  dict_get i (snd (test d' i)) = dict_get i (snd (test d i)).

Fixpoint scan (l : list pystr) (d : Prober.cooldowns) : option pystr * Prober.cooldowns :=
  match l with
  | [] => (None, d)
  | i :: rest => let '(b, d') := test d i in if b then (Some i, d') else scan rest d'
  end.

Lemma scan_preserves : forall rest d j, ~ In j rest ->
  dict_get j (snd (scan rest d)) = dict_get j d.
Proof.
  induction rest as [|i rest IH]; intros d j Hj; simpl; [reflexivity|].
  assert (Hji : j <> i) by (intro; subst; apply Hj; left; reflexivity).
  pose proof (test_other d i j Hji) as Hd'.
  destruct (test d i) as [b d']. simpl in Hd'.
  destruct b; simpl; [exact Hd'|]. rewrite IH; [exact Hd'|].
  intro H. apply Hj. right. exact H.
Qed.

Lemma scan_step_ok : forall d i rest, ~ In i rest -> forall j, In j rest ->
  ok (snd (test d i)) j = ok d j.
Proof.
  intros d i rest Hi j Hj. apply ok_ext, test_other.
  intro; subst; contradiction.
Qed.

Lemma scan_result : forall l d, NoDup l ->
  (forall i, fst (scan l d) = Some i <->
     exists pre post, l = pre ++ i :: post /\
       Forall (fun j => ok d j = false) pre /\ ok d i = true) /\
  (fst (scan l d) = None <-> Forall (fun j => ok d j = false) l).
Proof.
  induction l as [|i rest IH]; intros d Hnd; simpl.
  - split; [intro i; split; [discriminate|]|split; [constructor|reflexivity]].
    intros (pre & post & Heq & _). destruct pre; discriminate.
  - inversion Hnd as [|? ? Hni Hnd']; subst.
    pose proof (test_fst d i) as Hok.
    pose proof (scan_step_ok d i rest Hni) as Hext.
    destruct (test d i) as [b d'] eqn:Ht. simpl in Hok, Hext.
    assert (Hforall : forall l, incl l rest ->
              Forall (fun j => ok d' j = false) l <-> Forall (fun j => ok d j = false) l).
    { intros l Hl. rewrite !Forall_forall. split; intros H j Hj;
        [rewrite <- (Hext j)|rewrite (Hext j)]; auto. }
    destruct (IH d' Hnd') as [IHs IHn].
    destruct b.
    + simpl. split; [intro j; split|split; [discriminate|]].
      * intro H. inversion H; subst. exists [], rest. repeat split; auto.
      * intros (pre & post & Heq & Hpre & Hj).
        destruct pre as [|p pre]; simpl in Heq; inversion Heq; subst; [reflexivity|].
        inversion Hpre; subst. congruence.
      * intro H. inversion H; subst. congruence.
    + split; [intro j; rewrite IHs; split|rewrite IHn; split].
      * intros (pre & post & Heq & Hpre & Hj). exists (i :: pre), post.
        assert (Hin : forall x, In x pre -> In x rest)
          by (intros x Hx; rewrite Heq; apply in_or_app; left; exact Hx).
        assert (Hjr : In j rest) by (rewrite Heq; apply in_or_app; right; left; reflexivity).
        subst rest. split; [reflexivity|]. split.
        -- constructor; [congruence|]. apply (Hforall pre); [exact Hin|exact Hpre].
        -- rewrite <- (Hext j); assumption.
      * intros (pre & post & Heq & Hpre & Hj).
        destruct pre as [|p pre]; simpl in Heq; inversion Heq; subst; [congruence|].
        inversion Hpre; subst. exists pre, post. split; [reflexivity|]. split.
        -- apply (Hforall pre); [|assumption]. intros x Hx. apply in_or_app. left. exact Hx.
        -- rewrite (Hext j); [exact Hj|]. apply in_or_app. right. left. reflexivity.
      * intro H. constructor; [congruence|]. apply (Hforall rest); [apply incl_refl|exact H].
      * intro H. inversion H; subst. apply (Hforall rest); [apply incl_refl|assumption].
Qed.

Lemma scan_reached : forall pre l d i post,
  NoDup l -> l = pre ++ i :: post ->
  Forall (fun j => ok d j = false) pre -> ok d i = false ->
  dict_get i (snd (scan l d)) = dict_get i (snd (test d i)).
Proof.
  induction pre as [|p pre IH]; intros l d i post Hnd Heq Hpre Hi; subst l; simpl.
  - inversion Hnd as [|? ? Hni _]; subst.
    pose proof (test_fst d i) as Hok.
    destruct (test d i) as [b d'] eqn:Ht. simpl in Hok |- *. rewrite Hok, Hi.
    apply scan_preserves. exact Hni.
  - inversion Hnd as [|? ? Hnp Hnd']; subst. inversion Hpre as [|? ? Hp Hpre']; subst.
    assert (Hip : i <> p) by (intro; subst; apply Hnp; apply in_or_app; right; left; reflexivity).
    pose proof (test_fst d p) as Hok.
    pose proof (test_other d p i Hip) as Hget.
    pose proof (fun j Hj => test_other d p j Hj) as Hgets.
    destruct (test d p) as [b d'] eqn:Ht. simpl in Hok, Hget, Hgets. rewrite Hok, Hp.
    rewrite (IH (pre ++ i :: post) d' i post Hnd' eq_refl).
    + apply test_self. exact Hget.
    + rewrite Forall_forall in *. intros j Hj. rewrite (ok_ext d d' j); [auto|].
      apply Hgets. intro; subst. apply Hnp. apply in_or_app. left. exact Hj.
    + rewrite (ok_ext d d' i); [exact Hi|exact Hget].
Qed.

End Scan.

(** The characterisation of a selector's answer: [i] is the first candidate
    of [l] accepted by [p]. *)
Definition first_in (l : list pystr) (p : pystr -> bool) (i : pystr) : Prop :=
  exists pre post, l = pre ++ i :: post /\ Forall (fun j => p j = false) pre /\ p i = true.

Section Probing.
Import Prober.
Variable net : pystr -> option probe.
Variable now : Z.

Definition cooling (d : cooldowns) (i : pystr) : bool :=
  match dict_get i d with Some delay => (now <? delay)%Z | None => false end.

Definition clean_url (r : probe) : bool :=
  negb (existsb (fun pat => contains (lower r.(final_url)) pat) bad_url_patterns).

Definition has_markup (r : probe) : bool :=
  find_div (lit "timeline") r || find_div (lit "profile") r || find_div (lit "timeline-item") r.

(** The candidates [_test_nitter_instance] accepts. *)
Definition accepted (d : cooldowns) (i : pystr) : bool :=
  negb (cooling d i) &&
  match net i with
  | Some r => clean_url r && Z.eqb r.(p_status) 200 && has_markup r
  | None => false
  end.

(** The candidates [get_working_instance] accepts. *)
Definition ai_url_ok (r : probe) : bool :=
  negb (contains r.(final_url) (lit "status.d420.de")).

Definition accepted_ai (d : cooldowns) (i : pystr) : bool :=
  negb (cooling d i) &&
  match net i with
  | Some r => ai_url_ok r && Z.eqb r.(p_status) 200
  | None => false
  end.

(** One candidate of [get_working_instance]'s loop body. *)
Definition test_ai (d : cooldowns) (i : pystr) : bool * cooldowns :=
  if cooling d i then (false, d) else
  match net i with
  | None => (false, d)
  | Some r =>
      if contains r.(final_url) (lit "status.d420.de") then (false, d)
      else if Z.eqb r.(p_status) 200 then (true, d)
      else if Z.eqb r.(p_status) 429 then (false, dict_set i (now + 90)%Z d)
      else (false, d)
  end.

Lemma dict_get_set : forall d k v j,
  dict_get j (dict_set k v d) = if str_eqb j k then Some v else dict_get j d.
Proof.
  induction d as [|[k' v'] d IH]; intros k v j; simpl.
  - destruct (str_eqb j k); reflexivity.
  - destruct (str_eqb k k') eqn:Hk; simpl.
    + apply str_eqb_eq in Hk. subst k'. destruct (str_eqb j k); reflexivity.
    + destruct (str_eqb j k') eqn:Hj.
      * apply str_eqb_eq in Hj. subst k'.
        destruct (str_eqb j k) eqn:Hjk; [|reflexivity].
        apply str_eqb_eq in Hjk. subst. rewrite str_eqb_refl in Hk. discriminate.
      * apply IH.
Qed.

Lemma cooling_ext : forall d d' i, dict_get i d' = dict_get i d -> cooling d' i = cooling d i.
Proof. intros d d' i H. unfold cooling. rewrite H. reflexivity. Qed.

Lemma find_working_source_scan : forall l d,
  find_working_source net now l d = scan (test_nitter_instance net now) l d.
Proof.
  induction l as [|i l IH]; intro d; simpl; [reflexivity|].
  destruct (test_nitter_instance net now d i) as [[|] d']; [reflexivity|apply IH].
Qed.

Lemma get_working_instance_scan : forall l d,
  ProberAI.get_working_instance net now l d = scan test_ai l d.
Proof.
  induction l as [|i l IH]; intro d; simpl; [reflexivity|].
  unfold test_ai, cooling.
  destruct (match dict_get i d with Some delay => (now <? delay)%Z | None => false end); [apply IH|].
  destruct (net i) as [r|]; [|apply IH].
  destruct (contains (final_url r) (lit "status.d420.de")); [apply IH|].
  destruct (Z.eqb (p_status r) 200); [reflexivity|].
  destruct (Z.eqb (p_status r) 429); apply IH.
Qed.

Lemma test_accepted : forall d i,
  fst (test_nitter_instance net now d i) = accepted d i.
Proof.
  intros d i. unfold test_nitter_instance, accepted, cooling, clean_url, has_markup.
  destruct (match dict_get i d with Some delay => (now <? delay)%Z | None => false end); [reflexivity|].
  cbn [negb andb]. destruct (net i) as [r|]; [|reflexivity].
  destruct (existsb (fun pat => contains (lower (final_url r)) pat) bad_url_patterns);
    cbn [negb andb fst]; [reflexivity|].
  destruct (Z.eqb (p_status r) 200); cbn [andb fst]; [reflexivity|].
  destruct (Z.eqb (p_status r) 429); reflexivity.
Qed.

Lemma test_ai_accepted : forall d i, fst (test_ai d i) = accepted_ai d i.
Proof.
  intros d i. unfold test_ai, accepted_ai, ai_url_ok.
  destruct (cooling d i); [reflexivity|]. cbn [negb andb].
  destruct (net i) as [r|]; [|reflexivity].
  destruct (contains (final_url r) (lit "status.d420.de")); cbn [negb andb fst]; [reflexivity|].
  destruct (Z.eqb (p_status r) 200); [reflexivity|].
  destruct (Z.eqb (p_status r) 429); reflexivity.
Qed.

(** What a probe leaves at the probed key: the 429 deadline, or the old entry. *)
Lemma test_self_get : forall d i,
  dict_get i (snd (test_nitter_instance net now d i)) =
  if negb (cooling d i) &&
     match net i with
     | Some r => clean_url r && Z.eqb r.(p_status) 429
     | None => false
     end
  then Some (now + 120)%Z else dict_get i d.
Proof.
  intros d i. unfold test_nitter_instance, cooling, clean_url.
  destruct (match dict_get i d with Some delay => (now <? delay)%Z | None => false end); [reflexivity|].
  cbn [negb andb]. destruct (net i) as [r|]; [|reflexivity].
  destruct (existsb (fun pat => contains (lower (final_url r)) pat) bad_url_patterns);
    cbn [negb andb snd]; [reflexivity|].
  destruct (Z.eqb (p_status r) 200) eqn:H200.
  - apply Z.eqb_eq in H200. rewrite H200. reflexivity.
  - destruct (Z.eqb (p_status r) 429); cbn [snd]; [|reflexivity].
    rewrite dict_get_set, str_eqb_refl. reflexivity.
Qed.

Lemma test_ai_self_get : forall d i,
  dict_get i (snd (test_ai d i)) =
  if negb (cooling d i) &&
     match net i with
     | Some r => ai_url_ok r && Z.eqb r.(p_status) 429
     | None => false
     end
  then Some (now + 90)%Z else dict_get i d.
Proof.
  intros d i. unfold test_ai, ai_url_ok.
  destruct (cooling d i); [reflexivity|]. cbn [negb andb].
  destruct (net i) as [r|]; [|reflexivity].
  destruct (contains (final_url r) (lit "status.d420.de")); cbn [negb andb snd]; [reflexivity|].
  destruct (Z.eqb (p_status r) 200) eqn:H200.
  - apply Z.eqb_eq in H200. rewrite H200. reflexivity.
  - destruct (Z.eqb (p_status r) 429); cbn [snd]; [|reflexivity].
    rewrite dict_get_set, str_eqb_refl. reflexivity.
Qed.

Lemma test_other_keys : forall d i j, j <> i ->
  dict_get j (snd (test_nitter_instance net now d i)) = dict_get j d.
Proof.
  intros d i j Hji. unfold test_nitter_instance.
  destruct (match dict_get i d with Some delay => (now <? delay)%Z | None => false end); [reflexivity|].
  destruct (net i) as [r|]; [|reflexivity].
  destruct (existsb (fun pat => contains (lower (final_url r)) pat) bad_url_patterns); [reflexivity|].
  destruct (Z.eqb (p_status r) 200); [reflexivity|].
  destruct (Z.eqb (p_status r) 429); [|reflexivity].
  simpl. rewrite dict_get_set. apply str_eqb_neq in Hji. rewrite Hji. reflexivity.
Qed.

Lemma test_ai_other_keys : forall d i j, j <> i ->
  dict_get j (snd (test_ai d i)) = dict_get j d.
Proof.
  intros d i j Hji. unfold test_ai.
  destruct (cooling d i); [reflexivity|].
  destruct (net i) as [r|]; [|reflexivity].
  destruct (contains (final_url r) (lit "status.d420.de")); [reflexivity|].
  destruct (Z.eqb (p_status r) 200); [reflexivity|].
  destruct (Z.eqb (p_status r) 429); [|reflexivity].
  simpl. rewrite dict_get_set. apply str_eqb_neq in Hji. rewrite Hji. reflexivity.
Qed.

Lemma accepted_ext : forall d d' i,
  dict_get i d' = dict_get i d -> accepted d' i = accepted d i.
Proof. intros d d' i H. unfold accepted. rewrite (cooling_ext d d' i H). reflexivity. Qed.

Lemma accepted_ai_ext : forall d d' i,
  dict_get i d' = dict_get i d -> accepted_ai d' i = accepted_ai d i.
Proof. intros d d' i H. unfold accepted_ai. rewrite (cooling_ext d d' i H). reflexivity. Qed.

Lemma test_self : forall d d' i, dict_get i d' = dict_get i d ->
  dict_get i (snd (test_nitter_instance net now d' i)) =
  dict_get i (snd (test_nitter_instance net now d i)).
Proof. intros d d' i H. rewrite !test_self_get, (cooling_ext d d' i H), H. reflexivity. Qed.

Lemma test_ai_self : forall d d' i, dict_get i d' = dict_get i d ->
  dict_get i (snd (test_ai d' i)) = dict_get i (snd (test_ai d i)).
Proof. intros d d' i H. rewrite !test_ai_self_get, (cooling_ext d d' i H), H. reflexivity. Qed.

End Probing.

(** A network on which the first candidate of [NITTER_INSTANCES] answers
    200 with a timeline on a page whose URL mentions maintenance, and the
    other candidates raise. *)
Definition maintenance_net (u : pystr) : option Prober.probe :=
  if str_eqb u (lit "https://nitter.poast.org")
  then Some (Prober.mkprobe (lit "https://nitter.poast.org/maintenance") 200 [[lit "timeline"]])
  else None.

(** A network on which every candidate answers 200 with a page without any
    [div]. *)
Definition empty_page_net (u : pystr) : option Prober.probe :=
  Some (Prober.mkprobe u 200 []).

(** ** Claim C8 *)

(** C8 (counterexample).  A candidate answering HTTP 200 whose page carries
    the timeline markup is not selected by [_find_working_source] when its
    final URL mentions maintenance: with only the first candidate answering,
    no instance is returned.  And [get_working_instance] of
    ai_summary_agent.py selects a candidate whose 200 page has none of the
    expected markup. *)
Lemma mirror_selector_200_with_markup_rejected :
  hd_error Prober.NITTER_INSTANCES = Some (lit "https://nitter.poast.org") /\
  Prober.find_div (lit "timeline")
    (Prober.mkprobe (lit "https://nitter.poast.org/maintenance") 200 [[lit "timeline"]]) = true /\
  fst (Prober.find_working_source maintenance_net 0 Prober.NITTER_INSTANCES []) = None /\
  has_markup (Prober.mkprobe (lit "https://nitter.poast.org") 200 []) = false /\
  fst (ProberAI.get_working_instance empty_page_net 0 Prober.NITTER_INSTANCES []) =
    Some (lit "https://nitter.poast.org").
Proof. vm_compute. repeat split. Qed.

(** C8 (amended).  For a list of distinct candidates, [_find_working_source]
    returns the first candidate that is not cooling down, whose probe does
    not raise, whose lowercased final URL contains none of the bad patterns,
    that answers 200 and whose page has a div of class timeline, profile or
    timeline-item; it returns no instance exactly when no candidate is so
    accepted; and a candidate reached by the walk (all earlier ones
    rejected) that is not cooling down and answers 429 from a clean URL
    ends with deadline [now + 120].  [get_working_instance] returns the
    first candidate that is not cooling down and answers 200 from a URL not
    containing status.d420.de, with no markup check, no instance exactly
    when none is so accepted, and a reached candidate answering 429 ends
    with deadline [now + 90]. *)
Theorem mirror_selector_first_accepted :
  forall (net : pystr -> option Prober.probe) (now : Z) (l : list pystr) (d : Prober.cooldowns),
  NoDup l ->
  ((forall i, fst (Prober.find_working_source net now l d) = Some i <->
              first_in l (accepted net now d) i) /\
   (fst (Prober.find_working_source net now l d) = None <->
    Forall (fun j => accepted net now d j = false) l) /\
   (forall pre i post r, l = pre ++ i :: post ->
      Forall (fun j => accepted net now d j = false) pre ->
      cooling now d i = false -> net i = Some r -> clean_url r = true ->
      r.(Prober.p_status) = 429%Z ->
      dict_get i (snd (Prober.find_working_source net now l d)) = Some (now + 120)%Z)) /\
  ((forall i, fst (ProberAI.get_working_instance net now l d) = Some i <->
              first_in l (accepted_ai net now d) i) /\
   (fst (ProberAI.get_working_instance net now l d) = None <->
    Forall (fun j => accepted_ai net now d j = false) l) /\
   (forall pre i post r, l = pre ++ i :: post ->
      Forall (fun j => accepted_ai net now d j = false) pre ->
      cooling now d i = false -> net i = Some r -> ai_url_ok r = true ->
      r.(Prober.p_status) = 429%Z ->
      dict_get i (snd (ProberAI.get_working_instance net now l d)) = Some (now + 90)%Z)).
Proof.
  intros net now l d Hnd.
  rewrite find_working_source_scan, get_working_instance_scan.
  destruct (scan_result _ _ (test_accepted net now) (test_other_keys net now)
              (accepted_ext net now) l d Hnd) as [Hs Hn].
  destruct (scan_result _ _ (test_ai_accepted net now) (test_ai_other_keys net now)
              (accepted_ai_ext net now) l d Hnd) as [Hs' Hn'].
  split; (split; [|split]).
  - exact Hs.
  - exact Hn.
  - intros pre i post r Heq Hpre Hc Hnet Hclean H429.
    assert (Hrej : accepted net now d i = false)
      by (unfold accepted; rewrite Hc, Hnet, H429; cbn; rewrite andb_false_r; reflexivity).
    rewrite (scan_reached _ _ (test_accepted net now) (test_other_keys net now)
               (accepted_ext net now) (test_self net now) pre l d i post Hnd Heq Hpre Hrej).
    rewrite test_self_get, Hc, Hnet, Hclean, H429. reflexivity.
  - exact Hs'.
  - exact Hn'.
  - intros pre i post r Heq Hpre Hc Hnet Hok H429.
    assert (Hrej : accepted_ai net now d i = false)
      by (unfold accepted_ai; rewrite Hc, Hnet, H429; cbn; rewrite andb_false_r; reflexivity).
    rewrite (scan_reached _ _ (test_ai_accepted net now) (test_ai_other_keys net now)
               (accepted_ai_ext net now) (test_ai_self net now) pre l d i post Hnd Heq Hpre Hrej).
    rewrite test_ai_self_get, Hc, Hnet, Hok, H429. reflexivity.
Qed.

(** The amended C8 on the code's candidate list and the maintenance network. *)
Lemma mirror_selector_first_accepted_witness :
  NoDup Prober.NITTER_INSTANCES /\
  (fst (Prober.find_working_source maintenance_net 0 Prober.NITTER_INSTANCES []) = None <->
   Forall (fun j => accepted maintenance_net 0 [] j = false) Prober.NITTER_INSTANCES).
Proof.
  assert (Hnd : NoDup Prober.NITTER_INSTANCES)
    by (vm_compute; repeat constructor; simpl; intuition discriminate).
  split; [exact Hnd|].
  exact (proj1 (proj2 (proj1 (mirror_selector_first_accepted maintenance_net 0 _ [] Hnd)))).
Defined.

(** ** Failure handling of the pipelines *)

(** A configured run: both variables set, nothing posted yet, webhook up. *)
Definition configured_world : Slack.world :=
  Slack.mkworld
    [(lit "OPENAI_API_KEY", lit "sk-test");
     (lit "SLACK_WEBHOOK_URL", lit "https://hooks.slack.com/services/T/B/X")]
    (mkdt 2025 3 1 10 30 0 (Some 0%Z)) [] (Some 200%Z).

Definition no_tweets (_ : pystr) : option (list pystr) := Some [].

Definition llm_down : Summarize.llm := fun _ => None.

(** ** Claim C4 *)

(** C4 (counterexample).  In ai_summary_agent.py a run with both variables
    set posts nothing when an external step fails: with no working mirror
    the exception escapes [main], and when scraping returns nothing [main]
    returns; in both cases no request is issued. *)
Lemma main_ai_failure_posts_nothing :
  Mains.main_ai configured_world None no_tweets llm_down = Mains.Raised configured_world /\
  Mains.main_ai configured_world (Some (lit "https://nitter.net")) no_tweets llm_down =
    Mains.Returned configured_world /\
  Slack.sent configured_world = [].
Proof. vm_compute. repeat split. Qed.

(** C4 (amended).  Once OPENAI_API_KEY and SLACK_WEBHOOK_URL are set,
    [main] of scripts/tweet_scraper.py always returns after issuing exactly
    one webhook request whose text carries its message: the demo summary
    when nothing was collected (no working mirror or empty scraping), the
    keyword-bucket manual summary when the language model raises.  [main]
    of ai_summary_agent.py lets the exception escape without posting when
    no mirror works, returns without posting when scraping collects
    nothing, and posts "Failed to generate summary" when the language
    model raises. *)
Theorem main_failure_handling :
  forall (w : Slack.world) (u : pystr) (instance : option pystr)
         (scrape : pystr -> option (list pystr)) (model : Summarize.llm),
  Mains.env_set w (lit "OPENAI_API_KEY") = true ->
  Slack.getenv w (lit "SLACK_WEBHOOK_URL") = Some u -> u <> [] ->
  let c := Mains.collect_scripts instance scrape in
  let m := Mains.message_scripts model (fst c) (snd c) in
  (exists w', Mains.main_scripts w instance scrape model = Mains.Returned w' /\
     Slack.sent w' = Slack.sent w ++
       [Slack.mkreq u [(lit "text", Slack.JStr (Slack.text_scripts w m));
                       (lit "mrkdwn", Slack.JBool true)]]) /\
  (snd c = [] -> is_prefix Text.demo_summary m = true) /\
  (snd c <> [] -> model (Summarize.prompt_scripts (snd c)) = None ->
     is_prefix (Summarize.generate_manual_summary (snd c)) m = true) /\
  (instance = None -> Mains.main_ai w instance scrape model = Mains.Raised w) /\
  (instance <> None -> Mains.scrape_ai scrape Mains.AI_ACCOUNTS [] = Some [] ->
     Mains.main_ai w instance scrape model = Mains.Returned w) /\
  (forall all, instance <> None -> Mains.scrape_ai scrape Mains.AI_ACCOUNTS [] = Some all ->
     all <> [] -> model (Summarize.prompt_ai all) = None ->
     exists w', Mains.main_ai w instance scrape model = Mains.Returned w' /\
       Slack.sent w' = Slack.sent w ++
         [Slack.mkreq u [(lit "text", Slack.JStr (Slack.text_ai w Text.failed_summary_ai));
                         (lit "mrkdwn", Slack.JBool true)]]).
Proof.
  intros w u instance scrape model Hk Hu Hu' c m.
  assert (Hmiss : Mains.missing_vars w = false).
  { unfold Mains.missing_vars. rewrite Hk. unfold Mains.env_set. rewrite Hu.
    destruct u; [contradiction|reflexivity]. }
  assert (Hsend : forall text msg,
    Slack.sent (snd (Slack.send_with text w msg)) = Slack.sent w ++
      [Slack.mkreq u [(lit "text", Slack.JStr (text w msg)); (lit "mrkdwn", Slack.JBool true)]]).
  { intros text msg. unfold Slack.send_with. rewrite Hu.
    destruct u; [contradiction|reflexivity]. }
  split; [|split; [|split; [|split; [|split]]]].
  - unfold Mains.main_scripts. rewrite Hmiss.
    subst m c. destruct (Mains.collect_scripts instance scrape) as [successful all].
    eexists. split; [reflexivity|]. apply Hsend.
  - intro Hnil. subst m. rewrite Hnil. apply is_prefix_app.
  - intros Hne Hdown. subst m c.
    destruct (Mains.collect_scripts instance scrape) as [successful all].
    cbn [fst snd] in *. destruct all as [|t ts]; [contradiction|].
    cbn [Mains.message_scripts Summarize.generate_summary_scripts].
    rewrite Hdown. cbn [snd]. apply is_prefix_app.
  - intro Hi. subst instance. unfold Mains.main_ai. rewrite Hmiss. reflexivity.
  - intros Hi Hs. unfold Mains.main_ai. rewrite Hmiss.
    destruct instance; [|contradiction]. rewrite Hs. reflexivity.
  - intros all Hi Hs Hne Hdown. unfold Mains.main_ai. rewrite Hmiss.
    destruct instance; [|contradiction]. rewrite Hs.
    destruct all as [|t ts]; [contradiction|].
    eexists. split; [reflexivity|].
    unfold Slack.send_to_slack_ai. rewrite Hsend.
    unfold Summarize.generate_summary_ai. rewrite Hdown. reflexivity.
Qed.

(** The amended C4 on the configured world, with no mirror and the model down. *)
Lemma main_failure_handling_witness :
  Mains.env_set configured_world (lit "OPENAI_API_KEY") = true /\
  Slack.getenv configured_world (lit "SLACK_WEBHOOK_URL") =
    Some (lit "https://hooks.slack.com/services/T/B/X") /\
  Mains.main_ai configured_world None no_tweets llm_down = Mains.Raised configured_world.
Proof.
  split; [reflexivity|]. split; [reflexivity|].
  refine (proj1 (proj2 (proj2 (proj2
    (main_failure_handling configured_world (lit "https://hooks.slack.com/services/T/B/X")
       None no_tweets llm_down eq_refl eq_refl _)))) eq_refl).
  discriminate.
Defined.

(** ** Instance selection of the page loops *)

Lemma scan_keeps_key : forall test (i : pystr) l d,
  (forall d k, dict_get i (snd (test d k)) = dict_get i d) ->
  dict_get i (snd (scan test l d)) = dict_get i d.
Proof.
  intros test i l. induction l as [|k l IH]; intros d Hk; simpl; [reflexivity|].
  specialize (Hk d k) as Hd. destruct (test d k) as [[|] d'] eqn:Ht; simpl in Hd |- *.
  - exact Hd.
  - rewrite IH by exact Hk. exact Hd.
Qed.

Lemma nitter_instances_nodup : NoDup Nitter.NITTER_INSTANCES.
Proof. vm_compute. repeat constructor; simpl; intuition discriminate. Qed.

Section Selection.
Variable get : pystr -> option Nitter.page.
Variable now : Z.

(** A candidate whose probe answers 200 from a clean URL and that is not
    in the cooldown map makes the selection succeed. *)
Lemma select_some : forall d i r,
  In i Nitter.NITTER_INSTANCES ->
  get (i ++ lit "/OpenAI") = Some r -> r.(Nitter.pg_status) = 200%Z ->
  contains r.(Nitter.pg_url) (lit "status.d420.de") = false ->
  dict_get i d = None ->
  exists c d', Nitter.get_working_instance get now d = (Some c, d').
Proof.
  intros d i r Hin Hget H200 Hurl Hd.
  unfold Nitter.get_working_instance. rewrite get_working_instance_scan.
  destruct (scan_result _ _ (test_ai_accepted (Nitter.net_of get) now)
              (test_ai_other_keys (Nitter.net_of get) now)
              (accepted_ai_ext (Nitter.net_of get) now) _ d nitter_instances_nodup)
    as [_ Hn].
  destruct (scan (test_ai (Nitter.net_of get) now) Nitter.NITTER_INSTANCES d) as [[c|] d'] eqn:Hs.
  - exists c, d'. reflexivity.
  - exfalso. simpl in Hn. destruct Hn as [Hn _]. specialize (Hn eq_refl).
    rewrite Forall_forall in Hn. specialize (Hn i Hin).
    unfold accepted_ai, cooling, ai_url_ok, Nitter.net_of in Hn.
    rewrite Hd, Hget in Hn. simpl in Hn. rewrite Hurl, H200 in Hn. discriminate.
Qed.

(** Selection only enters candidates that answered 429 into the map. *)
Lemma select_keeps : forall d i r,
  get (i ++ lit "/OpenAI") = Some r -> r.(Nitter.pg_status) <> 429%Z ->
  dict_get i (snd (Nitter.get_working_instance get now d)) = dict_get i d.
Proof.
  intros d i r Hget H429.
  unfold Nitter.get_working_instance. rewrite get_working_instance_scan.
  apply scan_keeps_key. intros d0 k.
  destruct (str_eqb i k) eqn:Hik.
  - apply str_eqb_eq in Hik. subst k. rewrite test_ai_self_get.
    unfold Nitter.net_of. rewrite Hget. simpl.
    apply Z.eqb_neq in H429. rewrite H429, !andb_false_r. reflexivity.
  - apply test_ai_other_keys. apply str_eqb_neq. exact Hik.
Qed.

End Selection.

(** ** The page loop of tweet_scraper.py *)

Section RootLoop.
Variable get : pystr -> option Nitter.page.
Variable now : Z.
Variables (username : pystr) (start_date end_date : datetime).

(** A non-200 answer that leaves a working instance: the iteration
    continues with the same URL choice and the same click count. *)
Lemma root_iter_error_page : forall st p c d,
  get (match RootScraper.load_more_url st with
       | Some u => u
       | None => Nitter.inst_str (RootScraper.current_instance st) ++ lit "/" ++ username
       end) = Some p ->
  p.(Nitter.pg_status) <> 200%Z ->
  Nitter.get_working_instance get now (RootScraper.instance_retry_delays st) = (Some c, d) ->
  RootScraper.iter get now username start_date end_date st =
  Nitter.Continue (RootScraper.mkst (RootScraper.tweets st) (RootScraper.load_more_url st)
                     (RootScraper.load_more_clicks st) (Some c) d).
Proof.
  intros st p c d Hget Hs Hsel. unfold RootScraper.iter. rewrite Hget.
  apply Z.eqb_neq in Hs. rewrite Hs. simpl. rewrite Hsel. reflexivity.
Qed.

End RootLoop.

(** X1.  In tweet_scraper.py, [get_user_tweets] never returns when the
    user's page answers with a status other than 200 on every instance
    while some candidate instance, absent from the cooldown map, keeps
    answering the [/OpenAI] probe with 200: the loop switches instance and
    retries the same page without ever counting a click.  ([None] for every
    [fuel]: the loop has not exited after any number of iterations.) *)
Theorem root_get_user_tweets_loops_on_error_page :
  forall (get : pystr -> option Nitter.page) (now : Z) (current : option pystr)
         (delays : Prober.cooldowns) (username : pystr) (start_date end_date : datetime)
         (i : pystr) (r : Nitter.page),
  In i Nitter.NITTER_INSTANCES ->
  get (i ++ lit "/OpenAI") = Some r -> r.(Nitter.pg_status) = 200%Z ->
  contains r.(Nitter.pg_url) (lit "status.d420.de") = false ->
  dict_get i delays = None ->
  (forall c, exists p, get (c ++ lit "/" ++ username) = Some p /\ p.(Nitter.pg_status) <> 200%Z) ->
  forall fuel,
  RootScraper.get_user_tweets fuel get now current delays username start_date end_date = None.
Proof.
  intros get now current delays username start_date end_date i r Hin Hget H200 Hurl Hd Hpages fuel.
  unfold RootScraper.get_user_tweets.
  assert (Hrun : forall fuel st, RootScraper.load_more_url st = None ->
            RootScraper.load_more_clicks st = 0%nat ->
            dict_get i (RootScraper.instance_retry_delays st) = None ->
            RootScraper.run fuel get now username start_date end_date st = None).
  { induction fuel0 as [|f IH]; intros st Hlm Hcl Hdi; simpl; rewrite Hcl; simpl; [reflexivity|].
    destruct (Hpages (Nitter.inst_str (RootScraper.current_instance st))) as (p & Hp & Hs).
    destruct (select_some get now (RootScraper.instance_retry_delays st) i r Hin Hget H200 Hurl Hdi)
      as (c & d & Hsel).
    rewrite (root_iter_error_page get now username start_date end_date st p c d);
      [|rewrite Hlm; exact Hp|exact Hs|exact Hsel].
    apply IH; simpl; [exact Hlm|exact Hcl|].
    pose proof (select_keeps get now (RootScraper.instance_retry_delays st) i r Hget) as Hk.
    rewrite Hsel in Hk. simpl in Hk. rewrite Hk; [exact Hdi|]. rewrite H200. discriminate. }
  rewrite Hrun; [reflexivity|reflexivity|reflexivity|exact Hd].
Qed.

Lemma root_get_user_tweets_loops_on_error_page_witness :
  let get := fun u : pystr =>
    Some (Nitter.mkpage u (if is_prefix (rev (lit "/OpenAI")) (rev u) then 200%Z else 404%Z)
            [] [] [] [] None) in
  let d := mkdt 2025 3 1 0 0 0 (Some 0%Z) in
  In (lit "https://nitter.net") Nitter.NITTER_INSTANCES /\
  (forall c, exists p, get (c ++ lit "/" ++ lit "xai") = Some p /\ p.(Nitter.pg_status) <> 200%Z) /\
  RootScraper.get_user_tweets 20 get 0 None [] (lit "xai") d d = None.
Proof.
  intros get d.
  assert (Hp : forall c, exists p, get (c ++ lit "/" ++ lit "xai") = Some p /\ p.(Nitter.pg_status) <> 200%Z).
  { intro c. eexists. split; [reflexivity|]. cbn [Nitter.pg_status].
    rewrite app_assoc, rev_app_distr. vm_compute. discriminate. }
  split; [left; reflexivity|]. split; [exact Hp|].
  apply (root_get_user_tweets_loops_on_error_page get 0 None [] (lit "xai") d d
           (lit "https://nitter.net") (Nitter.mkpage (lit "https://nitter.net/OpenAI") 200 [] [] [] [] None));
    [left; reflexivity|reflexivity|reflexivity|reflexivity|reflexivity|exact Hp].
Defined.

(** ** The page loop of ai_summary_agent.py *)

Section AILoop.
Variable get : pystr -> option Nitter.page.
Variable now : Z.
Variables (username : pystr) (start_date end_date : datetime).

(** X2.  In ai_summary_agent.py, [get_user_tweets] never returns when the
    user's page answers with a status other than 200 and 429 on every
    instance while some candidate instance, absent from the cooldown map,
    answers the [/OpenAI] probe with 200 from a clean URL: each bad answer
    switches to another instance without counting a retry. *)
Theorem ai_get_user_tweets_loops_on_error_page :
  forall (current : option pystr) (delays : Prober.cooldowns) (i : pystr) (r : Nitter.page),
  In i Nitter.NITTER_INSTANCES ->
  get (i ++ lit "/OpenAI") = Some r -> r.(Nitter.pg_status) = 200%Z ->
  contains r.(Nitter.pg_url) (lit "status.d420.de") = false ->
  dict_get i delays = None ->
  (forall c, exists p, get (c ++ lit "/" ++ username) = Some p /\
     p.(Nitter.pg_status) <> 200%Z /\ p.(Nitter.pg_status) <> 429%Z) ->
  forall fuel,
  AIScraper.get_user_tweets fuel get now current delays username start_date end_date = None.
Proof.
  intros current delays i r Hin Hget H200 Hurl Hd Hpages fuel.
  assert (Hk : forall d, dict_get i (snd (Nitter.get_working_instance get now d)) = dict_get i d).
  { intro d. apply (select_keeps get now d i r Hget). rewrite H200. discriminate. }
  assert (Hrun : forall fuel st, AIScraper.retry_count st = 0%nat ->
            AIScraper.last_working_instance st = None ->
            AIScraper.load_more_url st = None ->
            dict_get i (AIScraper.instance_retry_delays st) = None ->
            AIScraper.run fuel get now username start_date end_date st = None).
  { induction fuel0 as [|f IH]; intros st Hr Hl Hm Hdi; simpl; rewrite Hr; simpl; [reflexivity|].
    destruct (select_some get now _ i r Hin Hget H200 Hurl Hdi) as (c & d1 & Hsel).
    pose proof (Hk (AIScraper.instance_retry_delays st)) as Hk1. rewrite Hsel in Hk1. simpl in Hk1.
    rewrite Hdi in Hk1.
    destruct (select_some get now d1 i r Hin Hget H200 Hurl Hk1) as (c2 & d2 & Hsel2).
    pose proof (Hk d1) as Hk2. rewrite Hsel2 in Hk2. simpl in Hk2. rewrite Hk1 in Hk2.
    destruct (Hpages c) as (p & Hp & Hs200 & Hs429).
    unfold AIScraper.iter. rewrite Hl, Hsel, Hm, Hp.
    apply Z.eqb_neq in Hs200. apply Z.eqb_neq in Hs429. rewrite Hs200, Hs429.
    destruct (contains (Nitter.pg_url p) (lit "status.d420.de")); cbn -[Nitter.get_working_instance];
      rewrite Hsel2; apply IH; simpl; auto. }
  unfold AIScraper.get_user_tweets. rewrite Hrun; reflexivity || exact Hd.
Qed.
End AILoop.

Lemma ai_get_user_tweets_loops_on_error_page_witness :
  let get := fun u : pystr =>
    Some (Nitter.mkpage u (if is_prefix (rev (lit "/OpenAI")) (rev u) then 200%Z else 404%Z)
            [] [] [] [] None) in
  let d := mkdt 2025 3 1 0 0 0 (Some 0%Z) in
  (forall c, exists p, get (c ++ lit "/" ++ lit "xai") = Some p /\
     p.(Nitter.pg_status) <> 200%Z /\ p.(Nitter.pg_status) <> 429%Z) /\
  AIScraper.get_user_tweets 20 get 0 None [] (lit "xai") d d = None.
Proof.
  intros get d.
  assert (Hp : forall c, exists p, get (c ++ lit "/" ++ lit "xai") = Some p /\
     p.(Nitter.pg_status) <> 200%Z /\ p.(Nitter.pg_status) <> 429%Z).
  { intro c. eexists. split; [reflexivity|]. cbn [Nitter.pg_status].
    rewrite app_assoc, rev_app_distr. vm_compute. split; discriminate. }
  split; [exact Hp|].
  apply (ai_get_user_tweets_loops_on_error_page get 0 (lit "xai") d d None []
           (lit "https://nitter.net") (Nitter.mkpage (lit "https://nitter.net/OpenAI") 200 [] [] [] [] None));
    [left; reflexivity|reflexivity|reflexivity|reflexivity|reflexivity|exact Hp].
Defined.

Section AILoopShowMore.
Variable get : pystr -> option Nitter.page.
Variable now : Z.
Variables (username : pystr) (start_date end_date : datetime).

(** X3.  In ai_summary_agent.py, [get_user_tweets] never returns when
    every request answers 200 from a clean URL with a show-more link and
    some candidate instance is absent from the cooldown map: after the
    fifth click [load_more_url] stays set, so the final [break] is never
    taken and no retry is counted. *)
Theorem ai_get_user_tweets_loops_on_show_more :
  forall (current : option pystr) (delays : Prober.cooldowns) (i : pystr),
  In i Nitter.NITTER_INSTANCES -> dict_get i delays = None ->
  (forall u, exists p, get u = Some p /\ p.(Nitter.pg_status) = 200%Z /\
     contains p.(Nitter.pg_url) (lit "status.d420.de") = false /\
     exists cursor, p.(Nitter.pg_show_more) = Some (Some cursor)) ->
  forall fuel,
  AIScraper.get_user_tweets fuel get now current delays username start_date end_date = None.
Proof.
  intros current delays i Hin Hd Hall fuel.
  assert (Hsel : forall d, dict_get i d = None ->
            exists c d1, Nitter.get_working_instance get now d = (Some c, d1) /\ dict_get i d1 = None).
  { intros d Hdi. destruct (Hall (i ++ lit "/OpenAI")) as (r & Hget & H200 & Hurl & _).
    destruct (select_some get now d i r Hin Hget H200 Hurl Hdi) as (c & d1 & Hs).
    exists c, d1. split; [exact Hs|].
    pose proof (select_keeps get now d i r Hget) as Hk. rewrite Hs in Hk. simpl in Hk.
    rewrite Hk; [exact Hdi|]. rewrite H200. discriminate. }
  assert (Hrun : forall fuel st, AIScraper.retry_count st = 0%nat ->
            dict_get i (AIScraper.instance_retry_delays st) = None ->
            AIScraper.run fuel get now username start_date end_date st = None).
  { induction fuel0 as [|f IH]; intros st Hr Hdi; simpl; rewrite Hr; simpl; [reflexivity|].
    assert (Hpick : exists cur d1,
              match AIScraper.last_working_instance st with
              | Some l =>
                  match dict_get l (AIScraper.instance_retry_delays st) with
                  | None => (Some l, AIScraper.instance_retry_delays st)
                  | Some _ => Nitter.get_working_instance get now (AIScraper.instance_retry_delays st)
                  end
              | None => Nitter.get_working_instance get now (AIScraper.instance_retry_delays st)
              end = (Some cur, d1) /\ dict_get i d1 = None).
    { destruct (AIScraper.last_working_instance st) as [l|];
        [destruct (dict_get l (AIScraper.instance_retry_delays st))|].
      - destruct (Hsel _ Hdi) as (c & d1 & H1 & H2). eauto.
      - eauto.
      - destruct (Hsel _ Hdi) as (c & d1 & H1 & H2). eauto. }
    destruct Hpick as (cur & d1 & Hpick & Hd1).
    unfold AIScraper.iter. cbv zeta. rewrite Hpick.
    destruct (Hall (match AIScraper.load_more_url st with
                    | Some u => u | None => cur ++ lit "/" ++ username end))
      as (p & Hp & H200 & Hurl & cursor & Hsm).
    rewrite Hp, Hurl, H200, Hsm. cbn -[AIScraper.finish].
    destruct (AIScraper.load_more_clicks st <=? 4)%nat; [apply IH; simpl; auto|].
    unfold AIScraper.finish. cbn. destruct (AIScraper.found_tweets_in_range st || _);
      apply IH; simpl; auto. }
  unfold AIScraper.get_user_tweets. rewrite Hrun; reflexivity || exact Hd.
Qed.
End AILoopShowMore.

Lemma ai_get_user_tweets_loops_on_show_more_witness :
  let get := fun u : pystr =>
    Some (Nitter.mkpage (lit "https://nitter.net/OpenAI") 200 [] [] [] []
            (Some (Some (lit "?cursor=1")))) in
  let d := mkdt 2025 3 1 0 0 0 (Some 0%Z) in
  (forall u, exists p, get u = Some p /\ p.(Nitter.pg_status) = 200%Z /\
     contains p.(Nitter.pg_url) (lit "status.d420.de") = false /\
     exists cursor, p.(Nitter.pg_show_more) = Some (Some cursor)) /\
  AIScraper.get_user_tweets 30 get 0 None [] (lit "OpenAI") d d = None.
Proof.
  intros get d.
  assert (H : forall u, exists p, get u = Some p /\ p.(Nitter.pg_status) = 200%Z /\
     contains p.(Nitter.pg_url) (lit "status.d420.de") = false /\
     exists cursor, p.(Nitter.pg_show_more) = Some (Some cursor)).
  { intro u. eexists. split; [reflexivity|]. split; [reflexivity|].
    split; [vm_compute; reflexivity|]. eexists. reflexivity. }
  split; [exact H|].
  apply (ai_get_user_tweets_loops_on_show_more get 0 (lit "OpenAI") d d None []
           (lit "https://nitter.net")); [left; reflexivity|reflexivity|exact H].
Defined.

Lemma match_alt_split : forall a s cap rest,
  Strptime.match_alt a s = Some (cap, rest) -> s = cap ++ rest.
Proof.
  induction a as [|k a IH]; intros s cap rest H; simpl in H.
  - inversion H; reflexivity.
  - destruct s as [|c s']; [discriminate|].
    destruct (Strptime.cls_match k c); [|discriminate].
    destruct (Strptime.match_alt a s') as [[cap' rest']|] eqn:Hm; [|discriminate].
    inversion H; subst. simpl. f_equal. apply (IH _ _ _ Hm).
Qed.

Lemma in_skipn_in : forall (x : N) k s, In x (skipn k s) -> In x s.
Proof.
  intros x k s H. rewrite <- (firstn_skipn k s). apply in_or_app. right. exact H.
Qed.

(** Every literal of a format is matched by a character of the input
    equal to it up to [lower]. *)
Lemma all_matches_lit : forall toks s c,
  In (Strptime.FLit c) toks -> Strptime.all_matches toks s <> [] ->
  exists x, In x s /\ lower_cp x = lower_cp c.
Proof.
  induction toks as [|t ts IH]; intros s c Hin Hne; [destruct Hin|].
  destruct t as [c'| |d]; simpl in Hne.
  - destruct s as [|x s']; [contradiction|].
    destruct (N.eqb (lower_cp x) (lower_cp c')) eqn:Hx; [|contradiction].
    destruct Hin as [Heq|Hin].
    + inversion Heq; subst. exists x. split; [left; reflexivity|]. apply N.eqb_eq. exact Hx.
    + destruct (IH s' c Hin Hne) as (y & Hy & Hl). exists y. split; [right; exact Hy|exact Hl].
  - destruct Hin as [Heq|Hin]; [discriminate|].
    destruct (flat_map (fun k => Strptime.all_matches ts (skipn k s))
                (Strptime.down_to_one (Strptime.space_run s))) as [|m ms] eqn:Hf;
      [contradiction|].
    assert (Hm : In m (flat_map (fun k => Strptime.all_matches ts (skipn k s))
                (Strptime.down_to_one (Strptime.space_run s)))) by (rewrite Hf; left; reflexivity).
    apply in_flat_map in Hm. destruct Hm as (k & _ & Hk).
    destruct (IH (skipn k s) c Hin) as (y & Hy & Hl).
    + intro He. rewrite He in Hk. destruct Hk.
    + exists y. split; [apply (in_skipn_in y k s Hy)|exact Hl].
  - destruct Hin as [Heq|Hin]; [discriminate|].
    match type of Hne with flat_map ?f ?l <> [] => destruct (flat_map f l) as [|m ms] eqn:Hf end;
      [contradiction|].
    match type of Hf with flat_map ?f ?l = _ =>
      assert (Hm : In m (flat_map f l)) by (rewrite Hf; left; reflexivity) end.
    apply in_flat_map in Hm. destruct Hm as (a & _ & Ha).
    destruct (Strptime.match_alt a s) as [[cap rest]|] eqn:Hma; [|destruct Ha].
    destruct (IH rest c Hin) as (y & Hy & Hl).
    + intro He. rewrite He in Ha. destruct Ha.
    + exists y. split; [|exact Hl]. rewrite (match_alt_split _ _ _ _ Hma).
      apply in_or_app. right. exact Hy.
Qed.

Lemma lower_cp_194 : forall x, lower_cp x = lower_cp 194 -> x = 194.
Proof.
  intros x H. unfold lower_cp in H. simpl in H.
  destruct ((65 <=? x) && (x <=? 90)) eqn:Hb; [|exact H].
  apply andb_true_iff in Hb. destruct Hb as [_ Hb]. apply N.leb_le in Hb. lia.
Qed.

Lemma strptime_needs_lit : forall s fmt c,
  In (Strptime.FLit c) (Strptime.compile fmt) -> Strptime.strptime s fmt <> None ->
  exists x, In x s /\ lower_cp x = lower_cp c.
Proof.
  intros s fmt c Hin Hs. apply (all_matches_lit _ s c Hin).
  unfold Strptime.strptime in Hs. intro He. rewrite He in Hs. apply Hs. reflexivity.
Qed.

(** X4.  The date formats of ai_summary_agent.py contain the character
    U+00C2 before the middle dot: a container is collected only when its
    date title contains U+00C2 or its lower case U+00E2. *)
Theorem ai_parse_posts_needs_circumflex :
  forall username start_date end_date (cs : list Nitter.post),
  (forall c t, In c cs ->
     match Nitter.ct_span_title c with Some l => Some l | None => Nitter.ct_a_title c end
       = Some (Some t) ->
     ~ In 194 t /\ ~ In 226 t) ->
  AIScraper.parse_posts username start_date end_date cs = [].
Proof.
  intros username start_date end_date cs Hcs.
  assert (Hd : forall t, ~ In 194 t -> ~ In 226 t -> AIScraper.parse_date t = None).
  { intros t H194 H226. unfold AIScraper.parse_date.
    assert (Hno : forall fmt, In (Strptime.FLit 194) (Strptime.compile fmt) ->
                    Strptime.strptime t fmt = None).
    { intros fmt Hin. destruct (Strptime.strptime t fmt) as [d|] eqn:Hs; [|reflexivity].
      exfalso. destruct (strptime_needs_lit t fmt 194 Hin) as (x & Hx & Hl).
      - rewrite Hs. discriminate.
      - apply lower_cp_194 in Hl. subst x. contradiction. }
    rewrite !Hno; [reflexivity| vm_compute; tauto | vm_compute; tauto]. }
  induction cs as [|c cs IH]; [reflexivity|].
  simpl. rewrite IH by (intros c' t Hc' Ht; apply (Hcs c' t); [right; exact Hc'|exact Ht]).
  unfold AIScraper.parse_post.
  destruct (match Nitter.ct_content c with Some t => Some t | None => Nitter.ct_body c end);
    [|reflexivity].
  destruct (match Nitter.ct_span_title c with Some l => Some l | None => Nitter.ct_a_title c end)
    as [[t|]|] eqn:Ht; try reflexivity.
  destruct (Hcs c t (or_introl eq_refl) Ht) as [H194 H226].
  rewrite (Hd t H194 H226). reflexivity.
Qed.

Lemma ai_parse_posts_needs_circumflex_witness :
  let title := lit "Mar 1, 2025 " ++ [183] ++ lit " 10:30 PM UTC" in
  let cs := [Nitter.mkpost (Some (lit "hello")) None (Some (Some title)) None] in
  let s := mkdt 2025 3 1 0 0 0 (Some 0%Z) in
  let e := mkdt 2025 3 1 23 59 59 (Some 0%Z) in
  ParseDateRoot._parse_tweet_date title = Some (mkdt 2025 3 1 22 30 0 (Some 0%Z)) /\
  AIScraper.parse_posts (lit "OpenAI") s e cs = [].
Proof.
  intros title cs s e. split; [vm_compute; reflexivity|].
  apply ai_parse_posts_needs_circumflex.
  intros c t [<-|[]] Ht. cbn in Ht. inversion Ht; subst t.
  split; vm_compute; intuition discriminate.
Defined.

Section RootLoop2.
Variable get : pystr -> option Nitter.page.
Variable now : Z.
Variables (username : pystr) (start_date end_date : datetime).

Lemma root_iter_ok_page : forall st,
  (forall u p, get u = Some p -> p.(Nitter.pg_status) = 200%Z) ->
  match RootScraper.iter get now username start_date end_date st with
  | Nitter.Stop _ => True
  | Nitter.Continue st' => RootScraper.load_more_clicks st' = S (RootScraper.load_more_clicks st)
  end.
Proof.
  intros st H200. unfold RootScraper.iter.
  match goal with |- context [get ?u] => destruct (get u) as [p|] eqn:Hp end; [|exact I].
  rewrite (H200 _ _ Hp). cbn [negb Z.eqb Pos.eqb].
  destruct (match Nitter.pg_timeline_item p with [] => Nitter.pg_tweet p | cs => cs end);
    [exact I|].
  destruct (Nitter.pg_show_more p) as [[cursor|]|]; simpl; reflexivity || exact I.
Qed.

(** X5.  When every page request of tweet_scraper.py's [get_user_tweets]
    answers 200, the loop ends after at most five iterations: each
    iteration either leaves the loop or follows a show-more link and
    counts a click. *)
Theorem root_get_user_tweets_ends_on_ok_pages :
  forall current delays,
  (forall u p, get u = Some p -> p.(Nitter.pg_status) = 200%Z) ->
  exists ts, RootScraper.get_user_tweets 5 get now current delays username start_date end_date = Some ts.
Proof.
  intros current delays H200.
  assert (Hrun : forall n st, (5 <= RootScraper.load_more_clicks st + n)%nat ->
            exists st', RootScraper.run n get now username start_date end_date st = Some st').
  { induction n as [|n IH]; intros st Hn; simpl.
    - destruct (RootScraper.load_more_clicks st <? 5)%nat eqn:Hc.
      + apply Nat.ltb_lt in Hc. lia.
      + eauto.
    - destruct (RootScraper.load_more_clicks st <? 5)%nat; [|eauto].
      pose proof (root_iter_ok_page st H200) as Hi.
      destruct (RootScraper.iter get now username start_date end_date st) as [s|s]; [eauto|].
      apply IH. lia. }
  destruct (Hrun 5%nat (RootScraper.mkst [] None 0 current delays)) as (st' & Hst); [simpl; lia|].
  unfold RootScraper.get_user_tweets. rewrite Hst. eauto.
Qed.





End RootLoop2.

Lemma root_get_user_tweets_ends_on_ok_pages_witness :
  let get := fun u : pystr =>
    Some (Nitter.mkpage u 200 [Nitter.mkpost (Some (lit "hi")) None None None] [] [] []
            (Some (Some (lit "?cursor=1")))) in
  let d := mkdt 2025 3 1 0 0 0 (Some 0%Z) in
  (forall u p, get u = Some p -> p.(Nitter.pg_status) = 200%Z) /\
  exists ts, RootScraper.get_user_tweets 5 get 0 (Some (lit "https://nitter.net")) []
               (lit "OpenAI") d d = Some ts.
Proof.
  intros get d.
  assert (H : forall u p, get u = Some p -> p.(Nitter.pg_status) = 200%Z)
    by (intros u p Hp; inversion Hp; reflexivity).
  split; [exact H|].
  exact (root_get_user_tweets_ends_on_ok_pages get 0 (lit "OpenAI") d d
           (Some (lit "https://nitter.net")) [] H).
Defined.


(** ** Posts collected by scripts/twitter_scraper_scrapfly.py *)





(** X8.  A post whose [text] field is present but not a string (a JSON
    null) among the first three posts fetched for an account makes the
    debug loop of [scrape_all_accounts] raise: the run collects exactly
    what it would collect if fetching that account had failed. *)
Theorem scrapfly_bad_text_drops_account :
  forall timeline recent a tweets t,
  timeline a = Some tweets -> In t (firstn 3 tweets) ->
  (forall s, Scrapfly.get t (lit "text") (Scrapfly.VStr (lit "No text")) <> Scrapfly.VStr s) ->
  Scrapfly.scrape_all_accounts timeline recent =
  Scrapfly.scrape_all_accounts (fun u => if str_eqb u a then None else timeline u) recent.
Proof.
  intros timeline recent a tweets t Ha Hin Ht.
  assert (Hf : forallb Scrapfly.text_sliceable (firstn 3 tweets) = false).
  { destruct (forallb Scrapfly.text_sliceable (firstn 3 tweets)) eqn:Hb; [|reflexivity].
    rewrite forallb_forall in Hb. specialize (Hb t Hin). unfold Scrapfly.text_sliceable in Hb.
    destruct (Scrapfly.get t (lit "text") (Scrapfly.VStr (lit "No text"))) eqn:Hg;
      try discriminate. exfalso. exact (Ht s eq_refl). }
  unfold Scrapfly.scrape_all_accounts. generalize (@nil pystr).
  induction Scrapfly.X_ACCOUNTS as [|u rest IH]; intro all; [reflexivity|].
  cbn [Scrapfly.scrape_loop]. rewrite IH. f_equal.
  destruct (str_eqb u a) eqn:Hu; [|reflexivity].
  apply str_eqb_eq in Hu. subst u. rewrite Ha, Hf. reflexivity.
Qed.

Lemma scrapfly_bad_text_drops_account_witness :
  let bad : Scrapfly.tweet := [(lit "text", Scrapfly.VNone)] in
  let good : Scrapfly.tweet := [(lit "text", Scrapfly.VStr (lit "New model"))] in
  let timeline := fun u : pystr => Some [good; bad] in
  Scrapfly.scrape_all_accounts timeline (fun _ => true) =
  Scrapfly.scrape_all_accounts (fun u => if str_eqb u (lit "OpenAI") then None else timeline u)
    (fun _ => true).
Proof.
  intros bad good timeline.
  apply (scrapfly_bad_text_drops_account timeline (fun _ => true) (lit "OpenAI") [good; bad] bad);
    [reflexivity|right; left; reflexivity|intros s; discriminate].
Defined.

Section Categories.
Import ManualSummary.

Lemma dict_get_in_keys : forall {V} (d : list (pystr * V)) k,
  In k (map fst d) <-> dict_get k d <> None.
Proof.
  induction d as [|[k' v] d IH]; intros k; simpl.
  - split; [intros []|intro H; apply H; reflexivity].
  - destruct (str_eqb k k') eqn:Hk.
    + apply str_eqb_eq in Hk. subst. split; [discriminate|left; reflexivity].
    + apply str_eqb_neq in Hk. rewrite <- IH. split.
      * intros [H|H]; [congruence|exact H].
      * intro H; right; exact H.
Qed.

Lemma dict_get_in : forall {V} (d : list (pystr * V)) k v,
  dict_get k d = Some v -> In (k, v) d.
Proof.
  induction d as [|[k' v'] d IH]; intros k v H; simpl in H; [discriminate|].
  destruct (str_eqb k k') eqn:Hk.
  - apply str_eqb_eq in Hk. inversion H; subst. left; reflexivity.
  - right. apply IH. exact H.
Qed.

Lemma append_to_keys : forall d cat t k,
  In k (map fst (append_to cat t d)) <-> k = cat \/ In k (map fst d).
Proof.
  induction d as [|[k' v] d IH]; intros cat t k; simpl.
  - intuition (subst; auto).
  - destruct (str_eqb cat k') eqn:Hc; simpl.
    + apply str_eqb_eq in Hc. subst. intuition (subst; auto).
    + rewrite IH. intuition (subst; auto).
Qed.

(** The dictionary built by the categorisation loop: no key twice, no
    empty list. *)
Definition cat_inv (d : list (pystr * list pystr)) : Prop :=
  NoDup (map fst d) /\ Forall (fun p => snd p <> []) d.

Lemma append_to_inv : forall d cat t, cat_inv d -> cat_inv (append_to cat t d).
Proof.
  induction d as [|[k v] d IH]; intros cat t [Hnd Hne]; simpl.
  - split; [constructor; [intros []|constructor]|constructor; [simpl; discriminate|constructor]].
  - inversion Hnd as [|? ? Hk Hnd']; subst. inversion Hne as [|? ? Hv Hne']; subst.
    destruct (str_eqb cat k) eqn:Hc.
    + split; [exact Hnd|]. constructor; [simpl; intro H; apply app_eq_nil in H; destruct H; discriminate|exact Hne'].
    + destruct (IH cat t (conj Hnd' Hne')) as [H1 H2]. split.
      * simpl. constructor; [|exact H1]. rewrite append_to_keys. intros [H|H]; [|exact (Hk H)].
        subst. rewrite str_eqb_refl in Hc. discriminate.
      * constructor; [exact Hv|exact H2].
Qed.

Lemma categorize_loop_inv : forall tps ts acc, cat_inv acc -> cat_inv (categorize_loop tps ts acc).
Proof.
  intros tps ts. induction ts as [|t ts IH]; intros acc H; simpl; [exact H|].
  apply IH. destruct (first_category tps (lower t)); [apply append_to_inv|]; exact H.
Qed.

Lemma classified_as_key : forall tps cat t,
  classified_as tps cat t = true -> In cat (map fst tps).
Proof.
  intros tps cat t H. unfold classified_as in H. apply opt_str_eqb_eq in H.
  apply first_category_spec in H. destruct H as (pre & kws & post & -> & _).
  rewrite map_app. apply in_or_app. right. left. reflexivity.
Qed.

Lemma notable_activity_count : forall tps ts,
  NoDup (map fst tps) ->
  Scrapfly.notable_activity (categorize_loop tps ts []) =
  List.length (filter (fun cat => existsb (classified_as tps cat) ts) (map fst tps)).
Proof.
  intros tps ts Hnd.
  set (d := categorize_loop tps ts []).
  assert (Hinv : cat_inv d) by (apply categorize_loop_inv; split; constructor).
  destruct Hinv as [Hdk Hdv].
  assert (Hall : Scrapfly.notable_activity d = List.length (map fst d)).
  { unfold Scrapfly.notable_activity. rewrite length_map.
    clear Hdk. induction d as [|[k v] d' IH]; [reflexivity|].
    inversion Hdv as [|? ? Hv Hdv']; subst. simpl in Hv.
    destruct v as [|x v]; [congruence|]. simpl. f_equal. apply IH. exact Hdv'. }
  rewrite Hall.
  assert (Hmem : forall c, In c (map fst d) <->
            In c (filter (fun cat => existsb (classified_as tps cat) ts) (map fst tps))).
  { intro c. rewrite filter_In, dict_get_in_keys.
    assert (Hb : bucket d c = filter (classified_as tps c) ts).
    { unfold d. rewrite bucket_categorize_loop. reflexivity. }
    split.
    - intro H. destruct (dict_get c d) as [v|] eqn:Hg; [|congruence].
      assert (Hv : v <> []).
      { apply dict_get_in in Hg. rewrite Forall_forall in Hdv. exact (Hdv _ Hg). }
      unfold bucket in Hb. rewrite Hg in Hb. rewrite Hb in Hv.
      destruct (filter (classified_as tps c) ts) as [|t0 r] eqn:Hf; [congruence|].
      assert (Ht0 : In t0 (filter (classified_as tps c) ts)) by (rewrite Hf; left; reflexivity).
      apply filter_In in Ht0. destruct Ht0 as [Ht0 Hc].
      split; [exact (classified_as_key tps c t0 Hc)|].
      apply existsb_exists. exists t0. auto.
    - intros [_ H] Hg. apply existsb_exists in H. destruct H as (t0 & Ht0 & Hc).
      unfold bucket in Hb. rewrite Hg in Hb.
      assert (In t0 (filter (classified_as tps c) ts)) by (apply filter_In; auto).
      rewrite <- Hb in H. destruct H. }
  apply Nat.le_antisymm; apply NoDup_incl_length.
  - exact Hdk.
  - intros c Hc. apply Hmem. exact Hc.
  - apply NoDup_filter. exact Hnd.
  - intros c Hc. apply Hmem. exact Hc.
Qed.

End Categories.

(** X9.  The figure printed as "Companies with notable activity" by the
    manual summary of scripts/twitter_scraper_scrapfly.py counts the topic
    categories that received at least one post, not companies: it is at
    most 5 however many companies posted. *)
Theorem scrapfly_notable_activity_counts_categories : forall tweets,
  Scrapfly.notable_activity (ManualSummary.categorized_scrapfly tweets) =
    List.length (filter (fun cat => existsb (classified_as ManualSummary.topics_scrapfly cat) tweets)
                   (map fst ManualSummary.topics_scrapfly)) /\
  (Scrapfly.notable_activity (ManualSummary.categorized_scrapfly tweets) <= 5)%nat.
Proof.
  intro tweets.
  assert (Hnd : NoDup (map fst ManualSummary.topics_scrapfly)).
  { vm_compute. repeat constructor; simpl; intuition discriminate. }
  unfold ManualSummary.categorized_scrapfly. rewrite (notable_activity_count _ _ Hnd).
  split; [reflexivity|].
  etransitivity; [apply filter_length_le|]. reflexivity.
Qed.

Section Split.
Import Text Scrapfly.

(** A word of [str.split()]: non-empty, without whitespace. *)
Definition word_ok (w : pystr) : Prop := w <> [] /\ Forall (fun c => is_space c = false) w.

Lemma split_from_words : forall s cur,
  Forall (fun c => is_space c = false) cur -> Forall word_ok (split_from cur s).
Proof.
  induction s as [|c s IH]; intros cur Hcur; simpl.
  - destruct cur as [|x cur']; constructor; [|constructor].
    split; [intro H; apply (f_equal (@List.length N)) in H; rewrite length_rev in H; simpl in H; discriminate|].
    apply Forall_rev. exact Hcur.
  - destruct (is_space c) eqn:Hc.
    + destruct cur as [|x cur']; [apply IH; constructor|].
      constructor; [|apply IH; constructor].
      split; [intro H; apply (f_equal (@List.length N)) in H; rewrite length_rev in H; simpl in H; discriminate|].
      apply Forall_rev. exact Hcur.
    + apply IH. constructor; assumption.
Qed.

Lemma split_from_app_word : forall w rest cur,
  Forall (fun c => is_space c = false) w ->
  split_from cur (w ++ rest) = split_from (rev w ++ cur) rest.
Proof.
  induction w as [|c w IH]; intros rest cur Hw; [reflexivity|].
  inversion Hw as [|? ? Hc Hw']; subst. simpl. rewrite Hc, IH by exact Hw'.
  rewrite <- app_assoc. reflexivity.
Qed.

Lemma split_join : forall ws, Forall word_ok ws -> split (join (lit " ") ws) = ws.
Proof.
  unfold split. induction ws as [|w ws IH]; intro H; [reflexivity|].
  inversion H as [|? ? [Hw1 Hw2] H']; subst.
  assert (Hr : rev w <> []).
  { intro E. apply Hw1. rewrite <- (rev_involutive w), E. reflexivity. }
  destruct ws as [|w' ws'].
  - simpl join. rewrite <- (app_nil_r w), split_from_app_word by exact Hw2.
    rewrite app_nil_r. simpl. destruct (rev w) eqn:E; [congruence|].
    rewrite <- E, rev_involutive, app_nil_r. reflexivity.
  - change (join (lit " ") (w :: w' :: ws')) with (w ++ lit " " ++ join (lit " ") (w' :: ws')).
    rewrite split_from_app_word by exact Hw2. rewrite app_nil_r. simpl.
    destruct (rev w) eqn:E; [congruence|]. rewrite <- E, rev_involutive.
    f_equal. apply IH. exact H'.
Qed.

Lemma join_spaces : forall ws c, Forall word_ok ws ->
  In c (join (lit " ") ws) -> is_space c = true -> c = 32.
Proof.
  induction ws as [|w ws IH]; intros c H Hin Hs; [destruct Hin|].
  inversion H as [|? ? [_ Hw] H']; subst.
  destruct ws as [|w' ws'].
  - simpl in Hin. rewrite Forall_forall in Hw. rewrite (Hw c Hin) in Hs. discriminate.
  - change (join (lit " ") (w :: w' :: ws')) with (w ++ lit " " ++ join (lit " ") (w' :: ws')) in Hin.
    apply in_app_or in Hin. destruct Hin as [Hin|[Hin|Hin]].
    + rewrite Forall_forall in Hw. rewrite (Hw c Hin) in Hs. discriminate.
    + symmetry. exact Hin.
    + exact (IH c H' Hin Hs).
Qed.

Lemma split_from_lstrip : forall s, split_from [] (lstrip s) = split_from [] s.
Proof.
  induction s as [|c s IH]; [reflexivity|]. simpl.
  destruct (is_space c) eqn:Hc; [exact IH|]. simpl. rewrite Hc. reflexivity.
Qed.

Lemma split_from_trailing : forall s sp cur,
  Forall (fun c => is_space c = true) sp -> split_from cur (s ++ sp) = split_from cur s.
Proof.
  induction s as [|c s IH]; intros sp cur Hsp; simpl.
  - revert cur. induction Hsp as [|x sp Hx Hsp IHsp]; intro cur; [reflexivity|].
    simpl. rewrite Hx. destruct cur; rewrite IHsp; reflexivity.
  - destruct (is_space c); [destruct cur|]; rewrite IH by exact Hsp; reflexivity.
Qed.

Lemma lstrip_split : forall s, exists p, s = p ++ lstrip s /\ Forall (fun c => is_space c = true) p.
Proof.
  induction s as [|c s IH]; [exists []; auto|]. simpl.
  destruct (is_space c) eqn:Hc.
  - destruct IH as (p & Hp & Hf). exists (c :: p). rewrite Hp at 1. split; [reflexivity|].
    constructor; assumption.
  - exists []. split; [reflexivity|constructor].
Qed.

Lemma split_strip : forall s, split (strip s) = split s.
Proof.
  intro s. unfold split, strip.
  rewrite <- (split_from_lstrip s).
  destruct (lstrip_split (rev (lstrip s))) as (q & Hq & Hf).
  assert (E : lstrip s = rev (lstrip (rev (lstrip s))) ++ rev q).
  { rewrite <- rev_app_distr, <- Hq, rev_involutive. reflexivity. }
  rewrite E at 2. rewrite split_from_trailing; [reflexivity|]. apply Forall_rev. exact Hf.
Qed.

End Split.

(** X10.  [format_tweet_for_summary] returns ["@" + username + ": "], the
    text and the engagement suffix; the text part has the same words as
    the tweet's text and is already normalised: its only whitespace
    characters are single spaces between words, so it holds no line
    break, and splitting and re-joining it changes nothing. *)
Theorem scrapfly_format_tweet_normalised : forall t username s out,
  Scrapfly.get t (lit "text") (Scrapfly.VStr []) = Scrapfly.VStr s ->
  Scrapfly.format_tweet_for_summary t username = Some out ->
  exists body engagement,
    out = lit "@" ++ username ++ lit ": " ++ body ++ engagement /\
    Scrapfly.split body = Scrapfly.split s /\
    Text.join (lit " ") (Scrapfly.split body) = body /\
    (forall c, In c body -> is_space c = true -> c = 32).
Proof.
  intros t username s out Hs Hf.
  set (ws := Scrapfly.split (strip s)).
  assert (Hws : Forall word_ok ws) by (apply split_from_words; constructor).
  assert (Hsb : Scrapfly.split (Text.join (lit " ") ws) = Scrapfly.split s).
  { rewrite split_join by exact Hws. apply split_strip. }
  assert (Hgoal : forall e, out = lit "@" ++ username ++ lit ": " ++ Text.join (lit " ") ws ++ e ->
    exists body engagement,
      out = lit "@" ++ username ++ lit ": " ++ body ++ engagement /\
      Scrapfly.split body = Scrapfly.split s /\
      Text.join (lit " ") (Scrapfly.split body) = body /\
      (forall c, In c body -> is_space c = true -> c = 32)).
  { intros e He. exists (Text.join (lit " ") ws), e. split; [exact He|]. split; [exact Hsb|].
    split; [rewrite split_join by exact Hws; reflexivity|].
    intros c Hin Hc. exact (join_spaces ws c Hws Hin Hc). }
  unfold Scrapfly.format_tweet_for_summary in Hf. rewrite Hs in Hf. fold ws in Hf.
  destruct (Scrapfly.gt_int _ 1000) as [[|]|]; [|destruct (Scrapfly.gt_int _ 100) as [b|]|];
    try discriminate; inversion Hf; subst; eapply Hgoal; reflexivity.
Qed.

Lemma scrapfly_format_tweet_normalised_witness :
  let t : Scrapfly.tweet :=
    [(lit "text", Scrapfly.VStr (lit " New   model" ++ [10] ++ lit " out "));
     (lit "favorite_count", Scrapfly.VInt 2000)] in
  let out := lit "@xai: New model out [" ++ [128077] ++ lit "2000 " ++ [128260] ++ lit "0]" in
  Scrapfly.format_tweet_for_summary t (lit "xai") = Some out /\
  exists body engagement,
    out = lit "@" ++ lit "xai" ++ lit ": " ++ body ++ engagement /\
    Scrapfly.split body = Scrapfly.split (lit " New   model" ++ [10] ++ lit " out ") /\
    Text.join (lit " ") (Scrapfly.split body) = body /\
    (forall c, In c body -> is_space c = true -> c = 32).
Proof.
  intros t out.
  assert (H : Scrapfly.format_tweet_for_summary t (lit "xai") = Some out) by (vm_compute; reflexivity).
  split; [exact H|].
  exact (scrapfly_format_tweet_normalised t (lit "xai") _ out eq_refl H).
Defined.


Lemma scrape_scripts_counts : forall scrape accounts n all,
  Mains.scrape_scripts scrape accounts n all =
  (n + List.length (filter (fun a => match scrape a with Some (_ :: _) => true | _ => false end) accounts),
   all ++ flat_map (fun a => match scrape a with Some ts => ts | None => [] end) accounts)%nat.
Proof.
  intros scrape. induction accounts as [|a accounts IH]; intros n all; simpl.
  - rewrite Nat.add_0_r, app_nil_r. reflexivity.
  - destruct (scrape a) as [[|t ts]|]; rewrite IH; simpl.
    + reflexivity.
    + rewrite <- app_assoc. f_equal. lia.
    + reflexivity.
Qed.

(** X11.  The account loop of [main] in scripts/tweet_scraper.py counts
    the accounts whose [get_user_tweets] returned at least one post (at
    most 11) and concatenates their posts in account order; an account
    whose call raises contributes nothing.  No post is collected exactly
    when that count is 0, so the demo-mode message always reads
    "0/11 accounts processed". *)
Theorem scripts_main_account_counts : forall instance scrape model,
  let '(successful, all) := Mains.collect_scripts instance scrape in
  (successful <= 11)%nat /\
  all = match instance with
        | Some _ => flat_map (fun a => match scrape a with Some ts => ts | None => [] end)
                      Mains.X_ACCOUNTS
        | None => []
        end /\
  (successful = 0%nat <-> all = []) /\
  (all = [] -> Mains.message_scripts model successful all =
     Text.demo_summary ++ Text.demo_mode_sep ++ lit "0/11" ++ Text.demo_mode_tail).
Proof.
  intros instance scrape model.
  assert (Hmsg : forall all, all = [] -> Mains.message_scripts model 0 all =
     Text.demo_summary ++ Text.demo_mode_sep ++ lit "0/11" ++ Text.demo_mode_tail).
  { intros all ->. reflexivity. }
  destruct instance as [i|]; unfold Mains.collect_scripts.
  - rewrite scrape_scripts_counts. cbv beta iota. rewrite app_nil_l, Nat.add_0_l.
    set (f := fun a => match scrape a with Some (_ :: _) => true | _ => false end).
    set (g := fun a => match scrape a with Some ts => ts | None => [] end).
    split; [apply (Nat.le_trans _ _ _ (filter_length_le f Mains.X_ACCOUNTS)); reflexivity|].
    split; [reflexivity|].
    assert (Hiff : List.length (filter f Mains.X_ACCOUNTS) = 0%nat <-> flat_map g Mains.X_ACCOUNTS = []).
    { generalize Mains.X_ACCOUNTS. induction l as [|a l IH]; [simpl; tauto|].
      simpl. unfold f at 1, g at 1. destruct (scrape a) as [[|t ts]|]; simpl.
      - exact IH.
      - split; discriminate.
      - exact IH. }
    split; [exact Hiff|].
    intro H. apply Hiff in H as Hn. rewrite Hn. apply Hmsg. exact H.
  - split; [lia|]. split; [reflexivity|]. split; [tauto|]. intros _. apply Hmsg. reflexivity.
Qed.


(** ** [main] of tweet_scraper.py *)

(** X12.  Once OPENAI_API_KEY and SLACK_WEBHOOK_URL are set, [main] of
    tweet_scraper.py raises without posting when no instance works,
    returns without posting when no account yields a post, and otherwise
    issues exactly one webhook request, whose text is the dated title
    followed by the model's stripped answer to the prompt built from the
    collected posts, or "Failed to generate summary" when the call
    raises. *)
Theorem root_main_outcomes :
  forall (w : Slack.world) (u : pystr) (instance : option pystr)
         (scrape : pystr -> list pystr) (model : Summarize.llm),
  Mains.env_set w (lit "OPENAI_API_KEY") = true ->
  Slack.getenv w (lit "SLACK_WEBHOOK_URL") = Some u -> u <> [] ->
  let all := flat_map scrape Mains.X_ACCOUNTS in
  (instance = None -> RootMain.main w instance scrape model = Mains.Raised w) /\
  (instance <> None -> all = [] -> RootMain.main w instance scrape model = Mains.Returned w) /\
  (instance <> None -> all <> [] ->
     exists w', RootMain.main w instance scrape model = Mains.Returned w' /\
       Slack.sent w' = Slack.sent w ++
         [Slack.mkreq u [(lit "text", Slack.JStr (RootMain.text w
                           (match model (RootMain.prompt all) with
                            | Some c => strip c
                            | None => Text.failed_summary_ai
                            end)));
                         (lit "mrkdwn", Slack.JBool true)]]).
Proof.
  intros w u instance scrape model Hk Hu Hu' all.
  assert (Hmiss : Mains.missing_vars w = false).
  { unfold Mains.missing_vars. rewrite Hk. unfold Mains.env_set. rewrite Hu.
    destruct u; [contradiction|reflexivity]. }
  unfold RootMain.main. rewrite Hmiss. fold all.
  split; [|split].
  - intros ->. reflexivity.
  - intros Hi ->. destruct instance; [reflexivity|contradiction].
  - intros Hi Hne. destruct instance as [i|]; [|contradiction].
    destruct all as [|t ts] eqn:Ha; [contradiction|].
    eexists. split; [reflexivity|].
    unfold RootMain.send_to_slack, Slack.send_with. rewrite Hu.
    destruct u; [contradiction|]. reflexivity.
Qed.

Lemma root_main_outcomes_witness :
  let scrape := fun a : pystr => [lit "@" ++ a ++ lit ": New model"] in
  Mains.env_set configured_world (lit "OPENAI_API_KEY") = true /\
  Slack.getenv configured_world (lit "SLACK_WEBHOOK_URL") =
    Some (lit "https://hooks.slack.com/services/T/B/X") /\
  exists w', RootMain.main configured_world (Some (lit "https://nitter.net")) scrape llm_down
               = Mains.Returned w' /\
    Slack.sent w' = Slack.sent configured_world ++
      [Slack.mkreq (lit "https://hooks.slack.com/services/T/B/X")
         [(lit "text", Slack.JStr (RootMain.text configured_world Text.failed_summary_ai));
          (lit "mrkdwn", Slack.JBool true)]].
Proof.
  intros scrape. split; [reflexivity|]. split; [reflexivity|].
  refine (proj2 (proj2 (root_main_outcomes configured_world
    (lit "https://hooks.slack.com/services/T/B/X") (Some (lit "https://nitter.net")) scrape llm_down
    eq_refl eq_refl _)) _ _); discriminate.
Defined.
